(** * Machine telemetry ETL / ML pipeline: database layer and model tools

    A shallow embedding of [project/db.py] and
    [project/database_and_model_tools.py].  Python values, the pandas
    frame handed over by [pd.read_csv], the psycopg2 connection, the file
    system seen through [os.path.exists] / [joblib] and the logger are
    modelled explicitly; every function of the two modules that the
    properties below talk about is transcribed statement by statement on
    top of a small state-and-exception monad. *)

From Stdlib Require Import ZArith QArith String Ascii List Lia Bool Sorted.
From stdpp Require Import base option list gmap strings.

Local Open Scope string_scope.
Local Open Scope list_scope.

(** ** Python values and strings *)

Module Py.

(** Strings are byte strings; the case conversions act on the ASCII
    letters, which is what [str.lower] / [str.upper] do on ASCII text
    ([isascii]), such as the column and feature names of the tables
    below.  On text with other letters [str.lower] converts those too:
    what is proved about the exact result of a conversion of text that
    comes from outside is stated for ASCII text. *)

Definition is_upper (c : ascii) : bool :=
  (65 <=? nat_of_ascii c)%nat && (nat_of_ascii c <=? 90)%nat.

Definition is_lower (c : ascii) : bool :=
  (97 <=? nat_of_ascii c)%nat && (nat_of_ascii c <=? 122)%nat.

Definition lower_char (c : ascii) : ascii :=
  if is_upper c then ascii_of_nat (nat_of_ascii c + 32) else c.

Definition upper_char (c : ascii) : ascii :=
  if is_lower c then ascii_of_nat (nat_of_ascii c - 32) else c.

(** [str.lower] *)
Fixpoint lower (s : string) : string :=
  match s with
  | EmptyString => EmptyString
  | String c s' => String (lower_char c) (lower s')
  end.

(** [str.upper] *)
Fixpoint upper (s : string) : string :=
  match s with
  | EmptyString => EmptyString
  | String c s' => String (upper_char c) (upper s')
  end.

(** [str.isascii] *)
Fixpoint isascii (s : string) : bool :=
  match s with
  | EmptyString => true
  | String c s' => (nat_of_ascii c <? 128)%nat && isascii s'
  end.

Fixpoint has_upper (s : string) : bool :=
  match s with
  | EmptyString => false
  | String c s' => is_upper c || has_upper s'
  end.

(** [str.isspace] on one ASCII character. *)
Definition isspace (c : ascii) : bool :=
  let n := nat_of_ascii c in
  ((9 <=? n)%nat && (n <=? 13)%nat) || ((28 <=? n)%nat && (n <=? 32)%nat).

Fixpoint lstrip (s : string) : string :=
  match s with
  | EmptyString => EmptyString
  | String c s' => if isspace c then lstrip s' else s
  end.

(** [str.strip()] *)
Definition strip (s : string) : string :=
  String.rev (lstrip (String.rev (lstrip s))).

(** [str.startswith] *)
Definition startswith (s pre : string) : bool := String.prefix pre s.

(** [str.split()] with no argument: maximal runs of non-space characters. *)
Fixpoint split_go (cur : string) (s : string) : list string :=
  match s with
  | EmptyString => if String.eqb cur "" then [] else [String.rev cur]
  | String c s' =>
      if isspace c
      then (if String.eqb cur "" then [] else [String.rev cur]) ++ split_go "" s'
      else split_go (String c cur) s'
  end.

Definition split (s : string) : list string := split_go "" s.

(** [sub in s] on strings. *)
Fixpoint contains (s sub : string) : bool :=
  String.prefix sub s ||
  match s with
  | EmptyString => false
  | String _ s' => contains s' sub
  end.

(** [x in l] on a list of strings. *)
Definition str_in (x : string) (l : list string) : bool :=
  existsb (String.eqb x) l.

(** The Python values that flow through the two modules.  [PNaN] is the
    float NaN pandas uses for a missing cell, [PNone] is [None], [PNum]
    carries an int or a float, [PObj] is any other object (named by its
    type), for which only identity-free operations are used. *)
Inductive pyval : Type :=
  | PNone
  | PNaN
  | PNum (q : Q)
  | PStr (s : string)
  | PObj (type_name : string).

(** [pd.isna] on a scalar. *)
Definition isna (v : pyval) : bool :=
  match v with
  | PNone | PNaN => true
  | _ => false
  end.

(** Truth value of an object ([bool(v)]). *)
Definition truthy (v : pyval) : bool :=
  match v with
  | PNone => false
  | PNaN => true
  | PNum q => negb (Qeq_bool q 0)
  | PStr s => negb (String.eqb s "")
  | PObj _ => true
  end.

(** [d.get(k, default)] *)
Definition dict_get {V : Type} (d : gmap string V) (k : string) (dflt : V) : V :=
  default dflt (d !! k).

(** [d.get(k)], which is [None] for an absent key. *)
Definition dict_get_none (d : gmap string pyval) (k : string) : pyval :=
  dict_get d k PNone.

(** Exceptions: the class (all of them subclasses of [Exception]) and the
    message. *)
Inductive exn_class : Type :=
  | AttributeError
  | KeyError
  | IndexError
  | TypeError
  | ValueError
  | FileNotFoundError
  | ParserError
  | PicklingError
  | DatabaseError
  | OperationalError
  | InterfaceError.

Record exn : Type := mk_exn { exn_cls : exn_class; exn_msg : string }.

Definition is_attribute_error (e : exn) : bool :=
  match exn_cls e with AttributeError => true | _ => false end.

(** [seq[:limit]] *)
Definition slice_to {A : Type} (limit : Z) (l : list A) : list A :=
  if (0 <=? limit)%Z then take (Z.to_nat limit) l
  else take (length l - Z.to_nat (- limit)) l.

End Py.

Export Py.

(** ** The world the program runs in *)

Module Rt.

(** A frame as [pd.read_csv] returns it: the header and one list of cells
    per data row (a missing cell is [PNaN]). *)
Record DataFrame : Type := mk_df {
  columns : list string;
  rows : list (list pyval)
}.

(** [len(df)] *)
Definition df_len (df : DataFrame) : nat := length (rows df).

(** A deserialized model or scaler.  [feature_names_in_] is [None] when
    [hasattr(obj, 'feature_names_in_')] is false; [setattr_error] is the
    exception an assignment to that attribute raises ([None]: the write is
    accepted; a read-only property raises [AttributeError]); [transform]
    is the object's [transform] method on one row, if it has one. *)
Record pyobj : Type := mk_obj {
  feature_names_in_ : option (list string);
  setattr_error : option exn;
  transform : option (list pyval -> exn + list pyval)
}.

Inductive file : Type :=
  | FCsv (df : DataFrame)
  | FPickle (obj : pyobj)
  | FOther.

(** The psycopg2 connection: the committed content of the telemetry
    table, the rows written by the open transaction, and how often
    [commit()] and [rollback()] went through. *)
Record Conn : Type := mk_conn {
  table : list (list pyval);
  pending : list (list pyval);
  commits : nat;
  rollbacks : nat
}.

Inductive level : Type := INFO | WARNING | ERROR.

Inductive log_arg : Type :=
  | AStr (s : string)
  | AOptStr (s : option string)
  | ALen (n : nat)
  | ANames (l : list string)
  | AVals (l : list pyval)
  | AVal (v : pyval)
  | AExn (e : exn).

(** One [logger.<level>(f"...")] call: the text of the f-string (without
    its leading pictogram) and the values of its fields. *)
Record log_entry : Type := mk_log {
  log_level : level;
  log_text : string;
  log_args : list log_arg
}.

Record World : Type := mk_world {
  fs : gmap string file;
  conn : Conn;
  logs : list log_entry
}.

(** What a cursor holds after [cursor.execute]: the result set, if the
    statement produced one, and [cursor.rowcount].  A result row of a
    [RealDictCursor] is a dict; [NotRow] is any other item. *)
Inductive item : Type :=
  | Row (d : gmap string pyval)
  | NotRow (v : pyval).

Record cursor : Type := mk_cursor {
  result_set : option (list item);
  rowcount : Z
}.

(** The parts of the environment the code only calls: the database server
    behind [cursor.execute], behind one page of [execute_values], behind
    [commit()], behind [rollback()] (which raises when the connection is
    lost) and behind [psycopg2.connect]; and the file system under
    [joblib.dump]: whether the dump fails, and whether a failing dump has
    already emptied the file it had opened for writing. *)
Record Env : Type := mk_env {
  server_execute : string -> option (list pyval) -> Conn -> exn + cursor;
  server_execute_page : string -> list (list pyval) -> Conn -> option exn;
  server_commit : Conn -> option exn;
  write_error : string -> option exn;
  server_rollback : Conn -> option exn;
  write_truncates : string -> bool;
  server_connect : option exn
}.

(** *** State and exceptions *)

Inductive outcome (A : Type) : Type :=
  | Ok (a : A)
  | Raise (e : exn).
Arguments Ok {A} a.
Arguments Raise {A} e.

Definition M (A : Type) : Type := World -> outcome A * World.

Definition ret {A} (a : A) : M A := fun w => (Ok a, w).

Definition raise {A} (e : exn) : M A := fun w => (Raise e, w).

Definition bind {A B} (m : M A) (k : A -> M B) : M B :=
  fun w =>
    match m w with
    | (Ok a, w') => k a w'
    | (Raise e, w') => (Raise e, w')
    end.

(** [try: body  except Exception as e: handler] *)
Definition try_except {A} (body : M A) (handler : exn -> M A) : M A :=
  fun w =>
    match body w with
    | (Ok a, w') => (Ok a, w')
    | (Raise e, w') => handler e w'
    end.

(** [try: body  except AttributeError: handler] *)
Definition try_except_AttributeError {A} (body : M A) (handler : M A) : M A :=
  fun w =>
    match body w with
    | (Ok a, w') => (Ok a, w')
    | (Raise e, w') =>
        if is_attribute_error e then handler w' else (Raise e, w')
    end.

Declare Scope py_scope.
Delimit Scope py_scope with py.
Notation "x <- c1 ;; c2" := (bind c1 (fun x => c2))
  (at level 100, c1 at next level, right associativity) : py_scope.
Notation "c1 ;; c2" := (bind c1 (fun _ => c2))
  (at level 100, right associativity) : py_scope.
Local Open Scope py_scope.

Definition get_conn : M Conn := fun w => (Ok (conn w), w).

Definition set_conn (c : Conn) : M unit :=
  fun w => (Ok tt, mk_world (fs w) c (logs w)).

Definition logger (l : level) (text : string) (args : list log_arg) : M unit :=
  fun w => (Ok tt, mk_world (fs w) (conn w) (logs w ++ [mk_log l text args])).

(** [os.path.exists] *)
Definition path_exists (path : string) : M bool :=
  fun w => (Ok (bool_decide (is_Some (fs w !! path))), w).

(** [pd.read_csv] *)
Definition read_csv (path : string) : M DataFrame :=
  fun w =>
    match fs w !! path with
    | Some (FCsv df) => (Ok df, w)
    | Some _ => (Raise (mk_exn ParserError path), w)
    | None => (Raise (mk_exn FileNotFoundError path), w)
    end.

(** [joblib.load] *)
Definition joblib_load (path : string) : M pyobj :=
  fun w =>
    match fs w !! path with
    | Some (FPickle obj) => (Ok obj, w)
    | Some _ => (Raise (mk_exn PicklingError path), w)
    | None => (Raise (mk_exn FileNotFoundError path), w)
    end.

Section WithEnv.
Variable env : Env.

(** [joblib.dump(obj, path)]: the file is opened for writing and the
    object pickled into it.  A dump that fails after the file was opened
    leaves it emptied; one that fails before leaves it as it was. *)
Definition joblib_dump (obj : pyobj) (path : string) : M unit :=
  fun w =>
    match write_error env path with
    | Some e =>
        (Raise e,
         if write_truncates env path
         then mk_world (<[path := FOther]> (fs w)) (conn w) (logs w)
         else w)
    | None => (Ok tt, mk_world (<[path := FPickle obj]> (fs w)) (conn w) (logs w))
    end.

(** [conn.commit()] *)
Definition conn_commit : M unit :=
  c <- get_conn ;;
  match server_commit env c with
  | Some e => raise e
  | None =>
      set_conn (mk_conn (table c ++ pending c) [] (S (commits c)) (rollbacks c))
  end.

(** [conn.rollback()]: discards what the open transaction holds, or
    raises (on a lost connection) and discards nothing on this side. *)
Definition conn_rollback : M unit :=
  c <- get_conn ;;
  match server_rollback env c with
  | Some e => raise e
  | None => set_conn (mk_conn (table c) [] (commits c) (S (rollbacks c)))
  end.

(** [cursor.execute(query, params)] on a fresh cursor of the connection. *)
Definition cursor_execute (query : string) (params : option (list pyval)) : M cursor :=
  c <- get_conn ;;
  match server_execute env query params c with
  | inl e => raise e
  | inr cur => ret cur
  end.

(** [cursor.fetchall()] *)
Definition fetchall (cur : cursor) : M (list item) :=
  match result_set cur with
  | Some l => ret l
  | None => raise (mk_exn DatabaseError "no results to fetch")
  end.

(** psycopg2's [_paginate]: consecutive pages of [page_size] items, the
    last one possibly shorter. *)
Fixpoint paginate_go {A} (fuel page_size : nat) (seq : list A) : list (list A) :=
  match fuel with
  | O => []
  | S fuel' =>
      match seq with
      | [] => []
      | _ => take page_size seq :: paginate_go fuel' page_size (drop page_size seq)
      end
  end.

Definition paginate {A} (page_size : nat) (seq : list A) : list (list A) :=
  paginate_go (length seq) page_size seq.

Fixpoint execute_pages (query : string) (pages : list (list (list pyval))) : M unit :=
  match pages with
  | [] => ret tt
  | page :: pages' =>
      c <- get_conn ;;
      match server_execute_page env query page c with
      | Some e => raise e
      | None =>
          set_conn (mk_conn (table c) (pending c ++ page) (commits c) (rollbacks c)) ;;
          execute_pages query pages'
      end
  end.

(** [psycopg2.extras.execute_values(cursor, query, argslist, page_size)]:
    one multi-row statement per page, inside the open transaction. *)
Definition execute_values (query : string) (argslist : list (list pyval))
    (page_size : nat) : M unit :=
  execute_pages query (paginate page_size argslist).

End WithEnv.

End Rt.

Export Rt.

(** ** [db.py]: class [Database] *)

Module Db.
Local Open Scope py_scope.

(** What [execute_query] hands back: the fetched rows of a SELECT, or
    [cursor.rowcount] (an int) after any other statement. *)
Inductive qresult : Type :=
  | QRows (l : list item)
  | QCount (n : Z).

Definition is_select_query (query : string) : bool :=
  let normalized_query := upper (strip query) in
  startswith normalized_query "SELECT"
  || startswith normalized_query "WITH"
  || str_in "SELECT" (take 3 (split normalized_query)).

(** The SQL texts are the source's, with the indentation of their lines
    trimmed.  First the statements of [init_db]. *)
Definition sql_create_telemetry : string :=
"
CREATE TABLE IF NOT EXISTS telemetry (
 id SERIAL PRIMARY KEY,
 machineid VARCHAR(50),
 type VARCHAR(50),
 location VARCHAR(100),
 timestamp TIMESTAMP,
 enginetemperature FLOAT,
 fuelconsumption FLOAT,
 vibrationlevel FLOAT,
 humidity FLOAT,
 pressure FLOAT,
 poweroutput FLOAT,
 operatinghours FLOAT,
 status VARCHAR(50),
 status_encoded INTEGER,
 timestamp_epoch BIGINT,
 hour INTEGER,
 dayofweek INTEGER,
 month INTEGER,
 ts_utc TIMESTAMPTZ DEFAULT CURRENT_TIMESTAMP,
 ts_epoch BIGINT DEFAULT EXTRACT(EPOCH FROM CURRENT_TIMESTAMP)
)
".

Definition sql_create_user_query_log : string :=
"
CREATE TABLE IF NOT EXISTS user_query_log (
 id SERIAL PRIMARY KEY,
 role VARCHAR(100),
 query TEXT,
 intent VARCHAR(50),
 confidence FLOAT,
 machine_id VARCHAR(50),
 target_time_epoch BIGINT,
 ts_epoch BIGINT DEFAULT EXTRACT(EPOCH FROM CURRENT_TIMESTAMP)
)
".

Definition sql_create_predictions : string :=
"
CREATE TABLE IF NOT EXISTS predictions (
 id SERIAL PRIMARY KEY,
 machine_id VARCHAR(50),
 intent VARCHAR(50),
 numerical_answer FLOAT,
 features JSONB,
 ts_epoch BIGINT DEFAULT EXTRACT(EPOCH FROM CURRENT_TIMESTAMP)
)
".

Definition queries : list string :=
  [ sql_create_telemetry; sql_create_user_query_log; sql_create_predictions ].

Definition index_queries : list string :=
  [ "CREATE INDEX IF NOT EXISTS idx_telemetry_machine_id ON telemetry(machineid)";
    "CREATE INDEX IF NOT EXISTS idx_telemetry_timestamp_epoch ON telemetry(timestamp_epoch)";
    "CREATE INDEX IF NOT EXISTS idx_telemetry_ts_epoch ON telemetry(ts_epoch)";
    "CREATE INDEX IF NOT EXISTS idx_query_log_epoch ON user_query_log(ts_epoch)";
    "CREATE INDEX IF NOT EXISTS idx_predictions_epoch ON predictions(ts_epoch)";
    "CREATE INDEX IF NOT EXISTS idx_telemetry_composite ON telemetry(machineid, timestamp_epoch)" ].

(** The query of the "latest reading per machine" reports: [column] is
    the selected metric with its alias, [filter] the WHERE clause. *)
Definition sql_latest (column filter : string) : string :=
"
SELECT DISTINCT ON (machineid)
 machineid,
 " +:+ column +:+ ",
 timestamp_epoch,
 timestamp
FROM telemetry
WHERE " +:+ filter +:+ "
ORDER BY machineid, timestamp_epoch DESC
".

Definition sql_temperature : string :=
  sql_latest "enginetemperature as temperature" "enginetemperature IS NOT NULL".
Definition sql_humidity : string :=
  sql_latest "humidity" "humidity IS NOT NULL".
Definition sql_vibration : string :=
  sql_latest "vibrationlevel as vibration" "vibrationlevel IS NOT NULL".
Definition sql_fuel : string :=
  sql_latest "fuelconsumption as fuel" "fuelconsumption IS NOT NULL".
Definition sql_humidity_checked : string :=
  sql_latest "humidity"
    "humidity IS NOT NULL
AND humidity > 0
AND humidity <= 100
AND machineid IS NOT NULL".

Definition sql_by_status (filter : string) : string :=
"
SELECT DISTINCT ON (machineid)
 machineid,
 status,
 enginetemperature,
 fuelconsumption,
 vibrationlevel,
 humidity,
 timestamp_epoch,
 timestamp
FROM telemetry
WHERE " +:+ filter +:+ "
ORDER BY machineid, timestamp_epoch DESC
".

Definition sql_comparison_stats : string :=
"
SELECT
 machineid,
 COUNT(*) as record_count,
 AVG(enginetemperature) as avg_temperature,
 MAX(enginetemperature) as max_temperature,
 AVG(humidity) as avg_humidity,
 MAX(humidity) as max_humidity,
 AVG(vibrationlevel) as avg_vibration,
 MAX(vibrationlevel) as max_vibration,
 AVG(fuelconsumption) as avg_fuel,
 MAX(fuelconsumption) as max_fuel,
 MAX(timestamp_epoch) as last_update
FROM telemetry
GROUP BY machineid
ORDER BY avg_temperature DESC
".

(** *** [sorted(rows, key=..., reverse=...)]

    The key of every row is computed first; a key function that raises
    makes [sorted] raise.  Keys are then compared: numbers (and the
    [float('inf')] of the lowest-humidity report) are ordered, and the
    sort is stable in both directions.  Keys of any other kind among
    two or more rows are reported as the [TypeError] that comparing
    [None] raises; the queries exclude [None] with [IS NOT NULL] on
    FLOAT columns.  This is what Python does for [None] next to a
    number; a NaN key raises nothing in Python (the rows come back in an
    order the sort does not promise), so what is proved about the order
    of a ranking is stated for rows whose keys are numbers. *)

Inductive sort_key : Type :=
  | KNum (q : Q)
  | KInf
  | KOther.

Definition key_le (a b : sort_key) : bool :=
  match a, b with
  | KNum x, KNum y => Qle_bool x y
  | KNum _, KInf => true
  | KInf, KInf => true
  | _, _ => false
  end.

Definition key_of_val (v : pyval) : sort_key :=
  match v with
  | PNum q => KNum q
  | _ => KOther
  end.

Definition is_other (k : sort_key) : bool :=
  match k with KOther => true | _ => false end.

(** [x[key]] *)
Definition getitem (x : item) (key : string) : outcome pyval :=
  match x with
  | Row d =>
      match d !! key with
      | Some v => Ok v
      | None => Raise (mk_exn KeyError key)
      end
  | NotRow _ => Raise (mk_exn TypeError "object is not subscriptable")
  end.

Fixpoint keyed {A} (key : A -> outcome sort_key) (l : list A)
    : outcome (list (sort_key * A)) :=
  match l with
  | [] => Ok []
  | x :: l' =>
      match key x with
      | Raise e => Raise e
      | Ok k =>
          match keyed key l' with
          | Raise e => Raise e
          | Ok kl => Ok ((k, x) :: kl)
          end
      end
  end.

Fixpoint insert_sorted {A} (le : sort_key -> sort_key -> bool)
    (x : sort_key * A) (l : list (sort_key * A)) : list (sort_key * A) :=
  match l with
  | [] => [x]
  | y :: l' => if le (fst x) (fst y) then x :: y :: l' else y :: insert_sorted le x l'
  end.

Definition sorted {A} (l : list A) (key : A -> outcome sort_key) (reverse : bool)
    : outcome (list A) :=
  match keyed key l with
  | Raise e => Raise e
  | Ok kl =>
      if (2 <=? length kl)%nat && existsb (fun kx => is_other (fst kx)) kl
      then Raise (mk_exn TypeError "'<' not supported between instances")
      else
        let le := if reverse then (fun a b => key_le b a) else key_le in
        Ok (map snd (foldr (insert_sorted le) [] kl))
  end.

(** [lambda x: x[name]] *)
Definition key_field (name : string) (x : item) : outcome sort_key :=
  match getitem x name with
  | Ok v => Ok (key_of_val v)
  | Raise e => Raise e
  end.

(** [lambda x: x['humidity'] if x['humidity'] is not None else float('inf')] *)
Definition key_humidity_or_inf (x : item) : outcome sort_key :=
  match getitem x "humidity" with
  | Ok PNone => Ok KInf
  | Ok v => Ok (key_of_val v)
  | Raise e => Raise e
  end.

Definition lift {A} (o : outcome A) : M A := fun w => (o, w).

(** [sorted(result, ...)] on what [execute_query] returned: an int is not
    iterable. *)
Definition sorted_result (r : qresult) (key : item -> outcome sort_key)
    (reverse : bool) : M (list item) :=
  match r with
  | QRows l => lift (sorted l key reverse)
  | QCount _ => raise (mk_exn TypeError "'int' object is not iterable")
  end.

Section WithEnv.
Variable env : Env.

Definition execute_query (query : string) (params : option (list pyval)) : M qresult :=
  try_except
    (cur <- cursor_execute env query params ;;
     if is_select_query query
     then (l <- fetchall cur ;; ret (QRows l))
     else (conn_commit env ;; ret (QCount (rowcount cur))))
    (fun e =>
       logger ERROR "Query failed: {e}" [AExn e] ;;
       conn_rollback env ;;
       raise e).

(** One round of the loops of [init_db]: run the statement, log the
    outcome, go on whatever happened. *)
Fixpoint init_db_loop (ok_text fail_text : string) (qs : list string) : M unit :=
  match qs with
  | [] => ret tt
  | query :: qs' =>
      try_except
        (execute_query query None ;;
         logger INFO ok_text [])
        (fun e => logger WARNING fail_text [AExn e]) ;;
      init_db_loop ok_text fail_text qs'
  end.

Definition init_db : M unit :=
  init_db_loop "Executed table creation query" "Could not execute query: {e}" queries ;;
  init_db_loop "Created index" "Could not create index: {e}" index_queries.

Definition get_machines_with_highest_temperature (limit : Z) : M (list item) :=
  all_machines <- execute_query sql_temperature None ;;
  sorted_machines <- sorted_result all_machines (key_field "temperature") true ;;
  ret (slice_to limit sorted_machines).

Definition get_machines_with_highest_humidity (limit : Z) : M (list item) :=
  all_machines <- execute_query sql_humidity None ;;
  sorted_machines <- sorted_result all_machines (key_field "humidity") true ;;
  ret (slice_to limit sorted_machines).

Definition get_machines_with_highest_vibration (limit : Z) : M (list item) :=
  all_machines <- execute_query sql_vibration None ;;
  sorted_machines <- sorted_result all_machines (key_field "vibration") true ;;
  ret (slice_to limit sorted_machines).

Definition get_machines_with_highest_fuel_consumption (limit : Z) : M (list item) :=
  all_machines <- execute_query sql_fuel None ;;
  sorted_machines <- sorted_result all_machines (key_field "fuel") true ;;
  ret (slice_to limit sorted_machines).

Definition get_machines_with_lowest_temperature (limit : Z) : M (list item) :=
  all_machines <- execute_query sql_temperature None ;;
  sorted_machines <- sorted_result all_machines (key_field "temperature") false ;;
  ret (slice_to limit sorted_machines).

Definition get_machines_with_lowest_vibration (limit : Z) : M (list item) :=
  all_machines <- execute_query sql_vibration None ;;
  sorted_machines <- sorted_result all_machines (key_field "vibration") false ;;
  ret (slice_to limit sorted_machines).

Definition get_machines_with_lowest_fuel_consumption (limit : Z) : M (list item) :=
  all_machines <- execute_query sql_fuel None ;;
  sorted_machines <- sorted_result all_machines (key_field "fuel") false ;;
  ret (slice_to limit sorted_machines).

Definition get_machine_comparison_stats : M qresult :=
  execute_query sql_comparison_stats None.

(** The logging loop of [get_machines_with_lowest_humidity]. *)
Fixpoint log_machines (i : nat) (l : list item) : M unit :=
  match l with
  | [] => ret tt
  | machine :: l' =>
      id <- lift (getitem machine "machineid") ;;
      h <- lift (getitem machine "humidity") ;;
      logger INFO "   {i+1}. {machine['machineid']}: {machine['humidity']}%"
        [ALen (i + 1); AVal id; AVal h] ;;
      log_machines (S i) l'
  end.

Definition get_machines_with_lowest_humidity (limit : Z) : M (list item) :=
  try_except
    (all_machines <- execute_query sql_humidity_checked None ;;
     match all_machines with
     | QCount _ | QRows [] =>
         logger WARNING "No valid humidity data found or query returned integer" [] ;;
         ret []
     | QRows _ =>
         sorted_machines <- sorted_result all_machines key_humidity_or_inf false ;;
         logger INFO "Database query returned {len(sorted_machines)} results"
           [ALen (length sorted_machines)] ;;
         log_machines 0 (slice_to limit sorted_machines) ;;
         ret (slice_to limit sorted_machines)
     end)
    (fun e =>
       logger ERROR "Error in get_machines_with_lowest_humidity: {e}" [AExn e] ;;
       ret []).

(** [if status_filter:] *)
Definition filter_given (status_filter : option string) : option string :=
  match status_filter with
  | Some s => if String.eqb s "" then None else Some s
  | None => None
  end.

(** [machine.get('status', '').lower()] *)
Definition status_lower (d : gmap string pyval) : outcome string :=
  match dict_get d "status" (PStr "") with
  | PStr s => Ok (lower s)
  | _ => Raise (mk_exn AttributeError "object has no attribute 'lower'")
  end.

(** The re-validation loop of [get_machines_by_status]. *)
Fixpoint valid_machines_loop (status_filter : option string) (result : list item)
    (valid_machines : list item) : outcome (list item) :=
  match result with
  | [] => Ok valid_machines
  | machine :: result' =>
      match machine with
      | Row d =>
          if truthy (dict_get_none d "machineid") && truthy (dict_get_none d "status")
          then
            match filter_given status_filter with
            | Some f =>
                match status_lower d with
                | Raise e => Raise e
                | Ok actual_status =>
                    let filter_status := lower f in
                    if contains actual_status filter_status
                    then valid_machines_loop status_filter result' (valid_machines ++ [machine])
                    else valid_machines_loop status_filter result' valid_machines
                end
            | None => valid_machines_loop status_filter result' (valid_machines ++ [machine])
            end
          else valid_machines_loop status_filter result' valid_machines
      | NotRow _ => valid_machines_loop status_filter result' valid_machines
      end
  end.

Definition get_machines_by_status (status_filter : option string) : M (list item) :=
  try_except
    (result <-
       match filter_given status_filter with
       | Some f =>
           execute_query
             (sql_by_status "status ILIKE %s AND machineid IS NOT NULL")
             (Some [PStr ("%" +:+ f +:+ "%")])
       | None =>
           execute_query (sql_by_status "machineid IS NOT NULL") None
       end ;;
     match result with
     | QCount n =>
         logger WARNING "Query returned integer instead of list: {result}"
           [AVal (PNum (inject_Z n))] ;;
         ret []
     | QRows [] =>
         logger INFO "No machines found with status filter: {status_filter}"
           [AOptStr status_filter] ;;
         ret []
     | QRows l =>
         valid_machines <- lift (valid_machines_loop status_filter l []) ;;
         logger INFO "Found {len(valid_machines)} ACCURATE machines with status filter: {status_filter}"
           [ALen (length valid_machines); AOptStr status_filter] ;;
         ret valid_machines
     end)
    (fun e =>
       logger ERROR "Error getting machines by status: {e}" [AExn e] ;;
       ret []).

(** *** The plain query wrappers *)

Definition sql_latest_telemetry : string :=
"
SELECT * FROM telemetry
WHERE machineid = %s
ORDER BY timestamp_epoch DESC
LIMIT %s
".

Definition sql_telemetry_range : string :=
"
SELECT * FROM telemetry
WHERE machineid = %s AND timestamp_epoch BETWEEN %s AND %s
ORDER BY timestamp_epoch
".

Definition sql_machine_list : string :=
  "SELECT DISTINCT machineid FROM telemetry ORDER BY machineid".

Definition sql_stats_machine : string :=
"
SELECT
 COUNT(*) as record_count,
 MIN(timestamp_epoch) as earliest_time,
 MAX(timestamp_epoch) as latest_time,
 AVG(enginetemperature) as avg_temperature,
 AVG(fuelconsumption) as avg_fuel,
 AVG(vibrationlevel) as avg_vibration
FROM telemetry
WHERE machineid = %s
".

Definition sql_stats_all : string :=
"
SELECT
 COUNT(*) as record_count,
 MIN(timestamp_epoch) as earliest_time,
 MAX(timestamp_epoch) as latest_time,
 COUNT(DISTINCT machineid) as machine_count
FROM telemetry
".


Definition get_latest_telemetry (machine_id limit : pyval) : M qresult :=
  execute_query sql_latest_telemetry (Some [machine_id; limit]).

Definition get_telemetry_range (machine_id time_from_epoch time_to_epoch : pyval)
    : M qresult :=
  execute_query sql_telemetry_range (Some [machine_id; time_from_epoch; time_to_epoch]).

Definition get_machine_list : M qresult :=
  execute_query sql_machine_list None.

(** [machine_id] defaults to [None]; [if machine_id:] also sends the
    empty string to the query over all machines. *)
Definition get_telemetry_stats (machine_id : pyval) : M qresult :=
  if truthy machine_id
  then execute_query sql_stats_machine (Some [machine_id])
  else execute_query sql_stats_all None.


(** *** Making the connection *)

(** [Database.connect]: the new connection sees the committed rows, has
    no transaction open and has not committed or rolled back yet. *)
Definition connect : M unit :=
  try_except
    (match server_connect env with
     | Some e => raise e
     | None =>
         c <- get_conn ;;
         set_conn (mk_conn (table c) [] 0 0) ;;
         logger INFO "Connected to PostgreSQL database" []
     end)
    (fun e =>
       logger ERROR "Database connection failed: {e}" [AExn e] ;;
       raise e).

(** [Database()]: [__init__] reads the connection parameters and ends
    in [self.connect()]. *)
Definition Database_init : M unit := connect.

(** [get_db()]: the module-level [_db_instance] is carried as a flag
    (set or still [None]); the answer is the flag afterwards. *)
Definition get_db (_db_instance : bool) : M bool :=
  if _db_instance then ret true
  else (Database_init ;; ret true).

End WithEnv.

End Db.

(** ** [database_and_model_tools.py] *)

Module Tools.
Local Open Scope py_scope.
Import Db.

(** *** class [DataIngestor] *)

Definition required_columns : list string :=
  [ "machineid"; "type"; "location"; "timestamp"; "enginetemperature";
    "fuelconsumption"; "vibrationlevel"; "humidity"; "pressure";
    "poweroutput"; "operatinghours"; "status"; "status_encoded";
    "timestamp_epoch"; "hour"; "dayofweek"; "month" ].

Definition column_mapping : gmap string string :=
  list_to_map
    [ ("MachineID", "machineid"); ("Type", "type"); ("Location", "location");
      ("Timestamp", "timestamp"); ("EngineTemperature", "enginetemperature");
      ("FuelConsumption", "fuelconsumption"); ("VibrationLevel", "vibrationlevel");
      ("Humidity", "humidity"); ("Pressure", "pressure"); ("PowerOutput", "poweroutput");
      ("OperatingHours", "operatinghours"); ("Status", "status");
      ("Status_encoded", "status_encoded"); ("Timestamp_epoch", "timestamp_epoch");
      ("hour", "hour"); ("dayofweek", "dayofweek"); ("month", "month") ].

(** [df.rename(columns=mapping)] with
    [mapping = {col: column_mapping.get(col, col.lower()) for col in df.columns}] *)
Definition _convert_column_names (df : DataFrame) : DataFrame :=
  mk_df (map (fun col => dict_get column_mapping col (lower col)) (columns df)) (rows df).

(** The argument of [df.fillna] in [_clean_dataframe]. *)
Definition fill_values : gmap string pyval :=
  list_to_map
    [ ("enginetemperature", PNum (75 # 1));
      ("fuelconsumption", PNum (10 # 1));
      ("vibrationlevel", PNum (3 # 1));
      ("humidity", PNum (65 # 1));
      ("pressure", PNum (950 # 1));
      ("poweroutput", PNum (200 # 1));
      ("operatinghours", PNum (0 # 1));
      ("status", PStr "Unknown") ].

Definition fill_cell (value : gmap string pyval) (col : string) (v : pyval) : pyval :=
  match value !! col with
  | Some d => if isna v then d else v
  | None => v
  end.

(** [df.fillna(value)] with a dict: in every column named by a key, the
    missing cells take that key's value; other columns are left alone.
    Rows are as long as the header. *)
Definition fillna (value : gmap string pyval) (df : DataFrame) : DataFrame :=
  mk_df (columns df) (map (fun r => zip_with (fill_cell value) (columns df) r) (rows df)).

Definition _clean_dataframe (df : DataFrame) : DataFrame :=
  let df_clean := fillna fill_values df in
  mk_df (map lower (columns df_clean)) (rows df_clean).

(** The cells of a row carrying label [c]. *)
Fixpoint labelled (cols : list string) (r : list pyval) (c : string) : list pyval :=
  match cols, r with
  | k :: cols', v :: r' =>
      if String.eqb k c then v :: labelled cols' r' c else labelled cols' r' c
  | _, _ => []
  end.

(** [row.get(c, default)] on a row of [df.iterrows()]: the cell under
    label [c], the default when there is no such label, and a Series of
    the cells when the label occurs more than once. *)
Definition row_get (cols : list string) (r : list pyval) (c : string) (dflt : pyval) : pyval :=
  match labelled cols r c with
  | [] => dflt
  | [v] => v
  | _ => PObj "Series"
  end.

(** The list [rows] built by the loop of [_insert_rows] over
    [df.iterrows()] (the common dtype pandas gives the cells of a row is
    not modelled: it changes how a number is represented, not whether a
    cell is missing). *)
Definition insert_tuples (df : DataFrame) : list (list pyval) :=
  map (fun row => map (fun c => row_get (columns df) row c PNone) required_columns) (rows df).

Definition insert_query : string :=
"
INSERT INTO telemetry (
 " +:+ String.concat ", " required_columns +:+ "
) VALUES %s
".

(** *** class [FeatureNamesFixer] *)

Definition feature_mapping : gmap string string :=
  list_to_map
    [ ("FuelConsumption", "fuelconsumption"); ("VibrationLevel", "vibrationlevel");
      ("Humidity", "humidity"); ("Pressure", "pressure"); ("PowerOutput", "poweroutput");
      ("OperatingHours", "operatinghours"); ("Timestamp_epoch", "timestamp_epoch");
      ("Hour", "hour"); ("DayOfWeek", "dayofweek"); ("Month", "month") ].

Definition expected_features : list string :=
  [ "fuelconsumption"; "vibrationlevel"; "humidity"; "pressure";
    "poweroutput"; "operatinghours"; "timestamp_epoch"; "hour";
    "dayofweek"; "month" ].

(** [[self.feature_mapping.get(f, f.lower()) for f in original]] *)
Definition translate (original : list string) : list string :=
  map (fun f => dict_get feature_mapping f (lower f)) original.

(** [obj.feature_names_in_ = new_features] *)
Definition set_feature_names (obj : pyobj) (new_features : list string) : M pyobj :=
  match setattr_error obj with
  | Some e => raise e
  | None => ret (mk_obj (Some new_features) (setattr_error obj) (transform obj))
  end.

(** *** class [ScalerTester] *)

Definition feature_order : list string :=
  [ "fuelconsumption"; "vibrationlevel"; "humidity"; "pressure";
    "poweroutput"; "operatinghours"; "timestamp_epoch"; "hour";
    "dayofweek"; "month" ].

(** [[features_dict.get(f, 0.0) for f in self.feature_order]] *)
Definition feature_vector (features_dict : gmap string pyval) : list pyval :=
  map (fun f => dict_get features_dict f (PNum 0)) feature_order.

(** [scaler.transform(np.array([row]))[0]] *)
Definition call_transform (scaler : pyobj) (row : list pyval) : M (list pyval) :=
  match transform scaler with
  | None => raise (mk_exn AttributeError "object has no attribute 'transform'")
  | Some f =>
      match f row with
      | inl e => raise e
      | inr scaled => ret scaled
      end
  end.

(** The function has no [return] with a value: Python hands back [None]
    on every path.  The result type leaves room for a vector so that the
    result can be compared with one. *)
Definition test_scaler_with_real_data (scaler_path : string)
    (features_dict : gmap string pyval) : M (option (list pyval)) :=
  try_except
    (found <- path_exists scaler_path ;;
     if negb found
     then (logger ERROR "Scaler not found: {scaler_path}" [AStr scaler_path] ;;
           ret None)
     else
       (scaler <- joblib_load scaler_path ;;
        scaled <- call_transform scaler (feature_vector features_dict) ;;
        logger INFO "Scaled output for {scaler_path}: {scaled[0]}"
          [AStr scaler_path; AVals scaled] ;;
        ret None))
    (fun e =>
       logger ERROR "Scaler test failed: {e}" [AExn e] ;;
       ret None).

Section WithEnv.
Variable env : Env.

Definition _insert_rows (df : DataFrame) : M nat :=
  let rows := insert_tuples df in
  let query := insert_query in
  try_except
    (execute_values env query rows 1000 ;;
     conn_commit env ;;
     logger INFO "Batch insert complete: {len(rows)} rows" [ALen (length rows)] ;;
     ret (length rows))
    (fun e =>
       logger ERROR "Batch insert failed: {e}" [AExn e] ;;
       conn_rollback env ;;
       raise e).

Definition ingest_csv (file_path : string) : M nat :=
  try_except
    (logger INFO "Reading CSV file: {file_path}" [AStr file_path] ;;
     df <- read_csv file_path ;;
     logger INFO "Loaded {len(df)} rows from CSV" [ALen (df_len df)] ;;
     let df := _convert_column_names df in
     let df := _clean_dataframe df in
     count <- _insert_rows df ;;
     logger INFO "Successfully ingested {count} rows" [ALen count] ;;
     ret count)
    (fun e =>
       logger ERROR "Ingestion failed: {e}" [AExn e] ;;
       raise e).

(** *** class [DatabaseInitializer] *)

(** [res[0]['count'] if res else 0] *)
Definition count_of (res : qresult) : outcome pyval :=
  match res with
  | QRows [] => Ok (PNum 0)
  | QRows (r :: _) => getitem r "count"
  | QCount n =>
      if (n =? 0)%Z then Ok (PNum 0)
      else Raise (mk_exn TypeError "'int' object is not subscriptable")
  end.

Fixpoint verify_loop (tables : list string) : M unit :=
  match tables with
  | [] => ret tt
  | t :: tables' =>
      try_except
        (res <- execute_query env ("SELECT COUNT(*) as count FROM " +:+ t) None ;;
         count <- lift (count_of res) ;;
         logger INFO "{t}: {count} rows" [AStr t; AVal count])
        (fun e => logger WARNING "Could not check {t}: {e}" [AStr t; AExn e]) ;;
      verify_loop tables'
  end.

Definition verify_database_setup : M unit :=
  verify_loop [ "telemetry"; "user_query_log"; "predictions" ].

(** [DatabaseInitializer()]: [__init__] is [self.db = get_db()]. *)
Definition DatabaseInitializer_init (_db_instance : bool) : M bool :=
  get_db env _db_instance.

(** [csv_file_path] is [None] or a string; [if csv_file_path and ...]
    skips [None] and the empty string.  [DataIngestor()] takes the
    connection [get_db()] already holds. *)
Definition setup_complete_database (csv_file_path : option string) : M unit :=
  try_except
    (logger INFO "Starting complete database setup..." [] ;;
     init_db env ;;
     match csv_file_path with
     | Some p =>
         if String.eqb p "" then ret tt
         else
           (found <- path_exists p ;;
            if found
            then (count <- ingest_csv p ;;
                  logger INFO "{count} rows inserted into telemetry." [ALen count])
            else ret tt)
     | None => ret tt
     end ;;
     verify_database_setup ;;
     logger INFO "Database setup completed successfully!" [])
    (fun e => logger ERROR "Database setup failed: {e}" [AExn e]).

Definition fix_model_features (model_path model_type : string) : M bool :=
  try_except
    (found <- path_exists model_path ;;
     if negb found
     then (logger ERROR "Model file not found: {model_path}" [AStr model_path] ;;
           ret false)
     else
       (model <- joblib_load model_path ;;
        match feature_names_in_ model with
        | Some names =>
            try_except
              (let original := names in
               let new_features := translate original in
               model <-
                 try_except_AttributeError
                   (model' <- set_feature_names model new_features ;;
                    logger INFO "Updated feature names for {model_type}: {new_features}"
                      [AStr model_type; ANames new_features] ;;
                    ret model')
                   (logger WARNING
                      "Cannot modify feature_names_in_ for {model_type} (read-only). Skipped update."
                      [AStr model_type] ;;
                    ret model) ;;
               joblib_dump env model model_path ;;
               logger INFO "Saved model file: {model_path}" [AStr model_path])
              (fun e =>
                 logger WARNING "Could not fix features for {model_type}: {e}"
                   [AStr model_type; AExn e])
        | None =>
            logger INFO "Model {model_type} has no feature_names_in_ attribute, skipped."
              [AStr model_type]
        end ;;
        ret true))
    (fun e =>
       logger ERROR "Failed to fix model features ({model_type}): {e}"
         [AStr model_type; AExn e] ;;
       ret false).

Definition fix_scaler_features (scaler_path scaler_type : string) : M bool :=
  try_except
    (found <- path_exists scaler_path ;;
     if negb found
     then (logger ERROR "Scaler file not found: {scaler_path}" [AStr scaler_path] ;;
           ret false)
     else
       (scaler <- joblib_load scaler_path ;;
        match feature_names_in_ scaler with
        | Some names =>
            let original := names in
            let new_features := translate original in
            scaler <- set_feature_names scaler new_features ;;
            joblib_dump env scaler scaler_path ;;
            logger INFO "Fixed scaler features for {scaler_type}: {new_features}"
              [AStr scaler_type; ANames new_features]
        | None => ret tt
        end ;;
        ret true))
    (fun e =>
       logger ERROR "Failed to fix scaler features ({scaler_type}): {e}"
         [AStr scaler_type; AExn e] ;;
       ret false).

(** [MODEL_DIR] is [os.path.join(BASE_DIR, "models")], fixed when the
    module is imported. *)
Variable MODEL_DIR : string.

Definition model_paths : list (string * (string * string)) :=
  [ ("regression",
      (MODEL_DIR +:+ "/best_regressor_v18.pkl", MODEL_DIR +:+ "/regression_scaler_v18.pkl"));
    ("classification_fault_idle",
      (MODEL_DIR +:+ "/classifier_fault_idle_v18.pkl",
       MODEL_DIR +:+ "/classifier_fault_idle_scaler_v18.pkl"));
    ("classification_active_maint",
      (MODEL_DIR +:+ "/classifier_active_maint_v18.pkl",
       MODEL_DIR +:+ "/classifier_active_maint_scaler_v18.pkl"));
    ("anomaly",
      (MODEL_DIR +:+ "/best_anomaly_detector_v18.pkl", MODEL_DIR +:+ "/anomaly_scaler_v18.pkl")) ].

Fixpoint fix_all_loop (paths : list (string * (string * string)))
    (results : gmap string bool) : M (gmap string bool) :=
  match paths with
  | [] => ret results
  | (intent, (model, scaler)) :: paths' =>
      m <- fix_model_features model intent ;;
      s <- fix_scaler_features scaler intent ;;
      fix_all_loop paths'
        (<[intent +:+ "_scaler" := s]> (<[intent +:+ "_model" := m]> results))
  end.

Definition fix_all_models : M (gmap string bool) :=
  fix_all_loop model_paths ∅.

End WithEnv.

End Tools.

(** ** Predicates the properties are stated with *)

Module Spec.
Import Db Tools.

(** A stored value is populated when it is not a missing value. *)
Definition populated (v : pyval) : Prop := isna v = false.

(** The frame [_insert_rows] receives from [ingest_csv]. *)
Definition prepared (df : DataFrame) : DataFrame :=
  _clean_dataframe (_convert_column_names df).




(** Field [key] of a result row is there and is neither [None] nor the
    empty string (nor any other false value). *)
Definition nonempty_field (d : gmap string pyval) (key : string) : Prop :=
  exists v, d !! key = Some v /\ truthy v = true /\ v <> PNone /\ v <> PStr "".

Definition valid_record (it : item) : Prop :=
  exists d, it = Row d /\ nonempty_field d "machineid" /\ nonempty_field d "status".

(** The connection after a rollback / after committing [batch]. *)
Definition rolled_back (c c' : Conn) : Prop :=
  table c' = table c /\ pending c' = [] /\
  commits c' = commits c /\ rollbacks c' = S (rollbacks c).

Definition committed_once (batch : list (list pyval)) (c c' : Conn) : Prop :=
  table c' = table c ++ pending c ++ batch /\ pending c' = [] /\
  commits c' = S (commits c) /\ rollbacks c' = rollbacks c.

(** Nothing was committed between [c] and [c']. *)
Definition nothing_committed (c c' : Conn) : Prop :=
  table c' = table c /\ commits c' = commits c.

(** What a run of the driver leaves of the committed state. *)
Definition same_committed (c c' : Conn) : Prop :=
  table c' = table c /\ commits c' = commits c /\ rollbacks c' = rollbacks c.

(** The world after one more log record. *)
Definition logged (w : World) (l : level) (text : string) (args : list log_arg) : World :=
  mk_world (fs w) (conn w) (logs w ++ [mk_log l text args]).

(** The world in which [ingest_csv] calls [_insert_rows]: two records
    logged, nothing else done. *)
Definition at_insert (w : World) (path : string) (src : DataFrame) : World :=
  logged (logged w INFO "Reading CSV file: {file_path}" [AStr path])
    INFO "Loaded {len(df)} rows from CSV" [ALen (df_len src)].

(** The query [get_machines_by_status] sends for a filter. *)
Definition status_query (env : Env) (status_filter : option string) : M qresult :=
  match filter_given status_filter with
  | Some f =>
      execute_query env (sql_by_status "status ILIKE %s AND machineid IS NOT NULL")
        (Some [PStr ("%" +:+ f +:+ "%")])
  | None => execute_query env (sql_by_status "machineid IS NOT NULL") None
  end.

End Spec.

(** ** Concrete inputs used to run the code *)

Module Examples.
Import Db Tools.

Definition db_down : exn := mk_exn DatabaseError "server closed the connection unexpectedly".

(** A server that answers every statement with an empty result set. *)
Definition env_ok : Env :=
  mk_env (fun _ _ _ => inr (mk_cursor (Some []) 0)) (fun _ _ _ => None)
         (fun _ => None) (fun _ => None)
         (fun _ => None) (fun _ => false) None.

(** A server that fails every statement. *)
Definition env_down : Env :=
  mk_env (fun _ _ _ => inl db_down) (fun _ _ _ => Some db_down)
         (fun _ => None) (fun _ => None)
         (fun _ => None) (fun _ => false) None.

Definition not_null_violation : exn :=
  mk_exn DatabaseError "null value in column machineid".

(** A server that refuses a page holding a tuple without a machine id. *)
Definition env_strict : Env :=
  mk_env (fun _ _ _ => inr (mk_cursor (Some []) 0))
         (fun _ page _ =>
            if forallb (fun t => negb (isna (default PNone (head t)))) page
            then None else Some not_null_violation)
         (fun _ => None) (fun _ => None)
         (fun _ => None) (fun _ => false) None.

Definition connection_lost : exn :=
  mk_exn OperationalError "server closed the connection unexpectedly".

Definition connection_closed : exn := mk_exn InterfaceError "connection already closed".

(** A connection that drops while a transaction is open: the next page
    is refused, and so is the rollback. *)
Definition env_lost : Env :=
  mk_env (fun _ _ _ => inr (mk_cursor (Some []) 0))
         (fun _ _ c => match pending c with [] => None | _ => Some connection_lost end)
         (fun _ => None) (fun _ => None)
         (fun _ => Some connection_closed) (fun _ => false) None.

Definition connection_refused : exn :=
  mk_exn OperationalError "could not connect to server: Connection refused".

(** A server that cannot be reached. *)
Definition env_unreachable : Env :=
  mk_env (fun _ _ _ => inl connection_closed) (fun _ _ _ => Some connection_closed)
         (fun _ => Some connection_closed) (fun _ => None)
         (fun _ => Some connection_closed) (fun _ => false) (Some connection_refused).

Definition conn0 : Conn := mk_conn [] [] 0 0.

Definition source_header : list string :=
  [ "MachineID"; "Type"; "Location"; "Timestamp"; "EngineTemperature";
    "FuelConsumption"; "VibrationLevel"; "Humidity"; "Pressure"; "PowerOutput";
    "OperatingHours"; "Status"; "Status_encoded"; "Timestamp_epoch";
    "hour"; "dayofweek"; "month" ].

(** A reading with no [Type] and no [Humidity]. *)
Definition row_gap : list pyval :=
  [ PStr "M1"; PNaN; PStr "Plant A"; PStr "2025-09-01 00:00:00"; PNum (80 # 1);
    PNum (12 # 1); PNum (2 # 1); PNaN; PNum (1000 # 1); PNum (185 # 1);
    PNum (120 # 1); PStr "Active"; PNum 1; PNum (1756684800 # 1);
    PNum 0; PNum 0; PNum (9 # 1) ].

(** A complete reading, and one without a machine id. *)
Definition row_full : list pyval :=
  [ PStr "M2"; PStr "Excavator"; PStr "Plant A"; PStr "2025-09-01 00:00:00";
    PNum (80 # 1); PNum (12 # 1); PNum (2 # 1); PNum (50 # 1); PNum (1000 # 1);
    PNum (185 # 1); PNum (120 # 1); PStr "Active"; PNum 1; PNum (1756684800 # 1);
    PNum 0; PNum 0; PNum (9 # 1) ].

Definition row_anonymous : list pyval := PNaN :: tail row_full.

Definition df_gap : DataFrame := mk_df source_header [row_gap].


Definition df_three : DataFrame := mk_df source_header [row_full; row_gap; row_full].

(** Two readings, the second one without a machine id. *)
Definition df_anonymous : DataFrame := mk_df source_header [row_full; row_anonymous].

(** 1001 readings, the last one without a machine id: two pages. *)
Definition df_two_pages : DataFrame :=
  mk_df source_header (replicate 1000 row_full ++ [row_anonymous]).

Definition csv_path : string := "/opt/airflow/project/data/machine_data_cleaned.csv".
Definition scaler_path : string := "/opt/airflow/project/models/regression_scaler_v18.pkl".
Definition model_path : string := "/opt/airflow/project/models/best_regressor_v18.pkl".

Definition world_csv (df : DataFrame) : World :=
  mk_world {[ csv_path := FCsv df ]} conn0 [].

Definition read_only : exn := mk_exn AttributeError "can't set attribute 'feature_names_in_'".

(** An artifact whose feature names cannot be assigned, one without
    feature names, and a scaler whose transform halves every number. *)
Definition obj_read_only : pyobj :=
  mk_obj (Some ["Humidity"; "Pressure"]) (Some read_only) None.

Definition obj_plain : pyobj := mk_obj None None None.

Definition halve (row : list pyval) : exn + list pyval :=
  inr (map (fun v => match v with PNum q => PNum (q / 2) | _ => v end) row).

Definition obj_scaler : pyobj := mk_obj (Some Tools.feature_order) None (Some halve).

Definition not_fitted : exn :=
  mk_exn ValueError "This StandardScaler instance is not fitted yet".

(** A scaler that was pickled before it was fitted: its transform
    raises. *)
Definition refuse (row : list pyval) : exn + list pyval := inl not_fitted.

Definition obj_unfitted : pyobj := mk_obj None None (Some refuse).

Definition world_artifact (path : string) (obj : pyobj) : World :=
  mk_world {[ path := FPickle obj ]} conn0 [].

(** [test_data] of the scheduled task. *)
Definition test_data : gmap string pyval :=
  list_to_map
    [ ("fuelconsumption", PNum (21 # 2)); ("vibrationlevel", PNum (4 # 1));
      ("humidity", PNum (68 # 1)); ("pressure", PNum (1000 # 1));
      ("poweroutput", PNum (185 # 1)); ("operatinghours", PNum (120 # 1));
      ("timestamp_epoch", PNum (1756684800 # 1)); ("hour", PNum (12 # 1));
      ("dayofweek", PNum (2 # 1)); ("month", PNum (9 # 1)) ].

End Examples.

(** ** [dags/db_pipeline_dag.py]: the scheduled tasks *)

Module Dag.
Local Open Scope py_scope.
Import Tools.

Definition CSV_FILE : string := "/opt/airflow/project/data/machine_data_cleaned.csv".
Definition SCALER_PATH : string := "/opt/airflow/project/models/regression_scaler_v18.pkl".

Definition test_data : gmap string pyval :=
  list_to_map
    [ ("fuelconsumption", PNum (21 # 2)); ("vibrationlevel", PNum (4 # 1));
      ("humidity", PNum (68 # 1)); ("pressure", PNum (1000 # 1));
      ("poweroutput", PNum (185 # 1)); ("operatinghours", PNum (120 # 1));
      ("timestamp_epoch", PNum (1756684800 # 1)); ("hour", PNum (12 # 1));
      ("dayofweek", PNum (2 # 1)); ("month", PNum (9 # 1)) ].

(** [task_init_database]: the initializer is constructed, which makes
    the connection unless the process has one already, and then run. *)
Definition task_init_database (env : Env) (_db_instance : bool) : M unit :=
  _ <- DatabaseInitializer_init env _db_instance ;;
  setup_complete_database env (Some CSV_FILE).

(** [task_fix_models]: the report of [fix_all_models] is dropped.
    [MODEL_DIR] is the directory the fixer's module was loaded from. *)
Definition task_fix_models (env : Env) (MODEL_DIR : string) : M unit :=
  _ <- fix_all_models env MODEL_DIR ;;
  ret tt.

(** [task_test_scaler] *)
Definition task_test_scaler : M unit :=
  _ <- test_scaler_with_real_data SCALER_PATH test_data ;;
  ret tt.

End Dag.

(** ** Further predicates and inputs *)

Module Behaviour.
Import Db Tools Spec.

(** The connection after one commit of the open transaction. *)
Definition committed (c c' : Conn) : Prop :=
  table c' = table c ++ pending c /\ pending c' = [] /\
  commits c' = S (commits c) /\ rollbacks c' = rollbacks c.

(** Nothing was committed and no file was written between [w] and [w']. *)
Definition read_only (w w' : World) : Prop :=
  table (conn w') = table (conn w) /\ commits (conn w') = commits (conn w) /\
  fs w' = fs w.

(** With no transaction open in [w]: none is open in [w'], and the
    committed rows and the files are the same. *)
Definition settled (w w' : World) : Prop :=
  pending (conn w) = [] ->
  table (conn w') = table (conn w) /\ pending (conn w') = [] /\ fs w' = fs w.

(** The connection is not touched between [w] and [w']. *)
Definition offline (w w' : World) : Prop := conn w' = conn w.

(** A computation that keeps relation [P] between the world it starts in
    and the world it ends in, whatever it returns or raises. *)
Definition stable {A} (P : World -> World -> Prop) (m : M A) : Prop :=
  forall w, P w (snd (m w)).


(** Row [it] has the number [q] in field [name]. *)
Definition field_num (name : string) (it : item) (q : Q) : Prop :=
  exists d, it = Row d /\ d !! name = Some (PNum q).

(** [a] may stand before [b] in a ranking by [name]. *)
Definition before (name : string) (reverse : bool) (a b : item) : Prop :=
  exists qa qb, field_num name a qa /\ field_num name b qb /\
    if reverse then (qb <= qa)%Q else (qa <= qb)%Q.

(** The length of [l[:limit]]. *)
Definition slice_len (limit : Z) (n : nat) : nat :=
  if (0 <=? limit)%Z then Nat.min (Z.to_nat limit) n else n - Z.to_nat (- limit).

(** [result] is the head of a ranking of [rows]: the rows it leaves out
    all come after the ones it keeps. *)
Definition ranking (name : string) (reverse : bool) (limit : Z)
    (rows result : list item) : Prop :=
  exists rest,
    result ++ rest ≡ₚ rows /\
    length result = slice_len limit (length rows) /\
    StronglySorted (before name reverse) (result ++ rest).

(** The order two sort keys are compared in. *)
Definition key_order (reverse : bool) (a b : sort_key) : bool :=
  if reverse then key_le b a else key_le a b.

(** [a] may stand before [b] under key function [key]. *)
Definition key_before {A} (key : A -> outcome sort_key) (reverse : bool) (a b : A) : Prop :=
  exists ka kb, key a = Ok ka /\ key b = Ok kb /\ key_order reverse ka kb = true.

(** What the re-validation of [get_machines_by_status] keeps. *)
Definition kept (status_filter : option string) (it : item) : bool :=
  match it with
  | Row d =>
      truthy (dict_get_none d "machineid") && truthy (dict_get_none d "status") &&
      match filter_given status_filter with
      | Some f =>
          match status_lower d with
          | Ok actual_status => contains actual_status (lower f)
          | Raise _ => false
          end
      | None => true
      end
  | NotRow _ => false
  end.

(** A field that is absent, [None] or a string. *)
Definition text_or_none (v : option pyval) : bool :=
  match v with
  | None | Some PNone | Some (PStr _) => true
  | Some _ => false
  end.

(** The machine id and the status of a row are text where they are
    there (as the VARCHAR columns of the schema give them). *)
Definition text_status (it : item) : bool :=
  match it with
  | Row d => text_or_none (d !! "machineid") && text_or_none (d !! "status")
  | NotRow _ => true
  end.

(** The status of a row, where it is text, is plain ASCII; so is the
    filter, where there is one. *)
Definition ascii_status (it : item) : bool :=
  match it with
  | Row d =>
      match d !! "status" with
      | Some (PStr s) => isascii s
      | _ => true
      end
  | NotRow _ => true
  end.

Definition ascii_filter (status_filter : option string) : bool :=
  match status_filter with
  | Some f => isascii f
  | None => true
  end.

(** The names [fix_all_models] reports under. *)
Definition report_keys : list string :=
  [ "regression_model"; "regression_scaler";
    "classification_fault_idle_model"; "classification_fault_idle_scaler";
    "classification_active_maint_model"; "classification_active_maint_scaler";
    "anomaly_model"; "anomaly_scaler" ].

(** An artifact after its feature names were rewritten. *)
Definition renamed (obj : pyobj) (names : list string) : pyobj :=
  mk_obj (Some (translate names)) (setattr_error obj) (transform obj).

(** A model with capitalized feature names that accepts the write. *)
Definition obj_writable : pyobj :=
  mk_obj (Some ["FuelConsumption"; "Humidity"; "Extra_Col"]) None None.

(** A server that lets reads and DDL through but has lost the
    telemetry table for inserts. *)
Definition env_no_insert : Env :=
  mk_env (fun _ _ _ => inr (mk_cursor (Some []) 0))
         (fun _ _ _ => Some (mk_exn DatabaseError "relation telemetry does not exist"))
         (fun _ => None) (fun _ => None)
         (fun _ => None) (fun _ => false) None.

(** Three machines with their latest temperature, as the server returns
    them (ordered by machine id). *)
Definition temperature_rows : list item :=
  [ Row (list_to_map [("machineid", PStr "A"); ("temperature", PNum (90 # 1))]);
    Row (list_to_map [("machineid", PStr "B"); ("temperature", PNum (70 # 1))]);
    Row (list_to_map [("machineid", PStr "C"); ("temperature", PNum (110 # 1))]) ].

Definition env_temperatures : Env :=
  mk_env (fun _ _ _ => inr (mk_cursor (Some temperature_rows) 3)) (fun _ _ _ => None)
         (fun _ => None) (fun _ => None)
         (fun _ => None) (fun _ => false) None.

Definition status_rows : list item :=
  [ Row (list_to_map [("machineid", PStr "A"); ("status", PStr "Fault")]);
    Row (list_to_map [("machineid", PStr "B"); ("status", PStr "faulty")]);
    Row (list_to_map [("machineid", PStr "C"); ("status", PStr "Idle")]);
    Row (list_to_map [("machineid", PStr "D"); ("status", PNone)]) ].

Definition env_statuses : Env :=
  mk_env (fun _ _ _ => inr (mk_cursor (Some status_rows) 4)) (fun _ _ _ => None)
         (fun _ => None) (fun _ => None)
         (fun _ => None) (fun _ => false) None.

Definition world0 : World := mk_world ∅ (mk_conn [] [] 0 0) [].

(** What a ranking report owes its caller once its query has returned
    [rows] in world [w1], every row carrying a number for the metric:
    it returns, in that same world, the head of a ranking of these
    rows. *)
Definition ranks (op : M (list item)) (name : string) (reverse : bool) (limit : Z)
    (w : World) (rows : list item) (w1 : World) : Prop :=
  Forall (fun it => exists q, field_num name it q) rows ->
  exists result, op w = (Ok result, w1) /\ ranking name reverse limit rows result.

(** The humidity of a row is a number or [None]. *)
Definition humidity_known (it : item) : Prop :=
  exists d, it = Row d /\
    (d !! "humidity" = Some PNone \/ exists q, d !! "humidity" = Some (PNum q)).

(** Three machines with their latest humidity, one of them unknown. *)
Definition humidity_rows : list item :=
  [ Row (list_to_map [("machineid", PStr "A"); ("humidity", PNum (70 # 1))]);
    Row (list_to_map [("machineid", PStr "B"); ("humidity", PNone)]);
    Row (list_to_map [("machineid", PStr "C"); ("humidity", PNum (40 # 1))]) ].

Definition env_humidities : Env :=
  mk_env (fun _ _ _ => inr (mk_cursor (Some humidity_rows) 3)) (fun _ _ _ => None)
         (fun _ => None) (fun _ => None)
         (fun _ => None) (fun _ => false) None.

(** [a] may stand before [b] in the lowest-humidity report: [b] has no
    humidity ([None]), or both have one and [a]'s is not the larger. *)
Definition humidity_before (a b : item) : Prop :=
  exists da db, a = Row da /\ b = Row db /\
    (db !! "humidity" = Some PNone /\
       (da !! "humidity" = Some PNone \/ exists qa, da !! "humidity" = Some (PNum qa))
     \/ exists qa qb, da !! "humidity" = Some (PNum qa) /\
          db !! "humidity" = Some (PNum qb) /\ (qa <= qb)%Q).

(** The two hottest machines of [temperature_rows], hottest first. *)
Definition temperature_top2 : list item :=
  [ Row (list_to_map [("machineid", PStr "C"); ("temperature", PNum (110 # 1))]);
    Row (list_to_map [("machineid", PStr "A"); ("temperature", PNum (90 # 1))]) ].

(** The keys a run of [fix_all_models] over [paths] writes. *)
Definition keys_of (paths : list (string * (string * string))) : list string :=
  flat_map (fun p => [fst p +:+ "_model"; fst p +:+ "_scaler"]) paths.

End Behaviour.

(** * Properties *)

Import Db Tools Spec Examples.

(** ** Reasoning about the monad *)

(** Unfold the plumbing of sequencing and logging. *)
Ltac run := cbv [bind ret raise lift logger get_conn set_conn logged].

(** Unfold a whole function body down to the lookups it makes. *)
Ltac exec :=
  cbv [bind ret raise lift logger get_conn set_conn logged try_except
       try_except_AttributeError path_exists joblib_load joblib_dump
       set_feature_names call_transform negb].

(** The path names the file [Hfile] speaks of. *)
Ltac found Hfile :=
  rewrite bool_decide_eq_true_2 by eauto; rewrite Hfile; cbv beta iota.

Lemma try_except_total {A} (body : M A) (handler : exn -> M A) (w : World) :
  (forall e w1, exists a w2, handler e w1 = (Ok a, w2)) ->
  exists a w', try_except body handler w = (Ok a, w').
Proof.
  intros Hh. unfold try_except. destruct (body w) as [[a|e] w1]; eauto.
Qed.

(** The handler [execute_query] and [_insert_rows] share: log the
    error, roll back, raise it again; a rollback that fails raises its
    own error instead, with nothing rolled back. *)
Lemma rollback_handler {A} (env : Env) (text : string) (e : exn) (w : World) :
  (logger ERROR text [AExn e] ;; conn_rollback env ;; raise (A:=A) e)%py w
  = match server_rollback env (conn w) with
    | None =>
        (Raise e,
         mk_world (fs w)
           (mk_conn (table (conn w)) [] (commits (conn w)) (S (rollbacks (conn w))))
           (logs w ++ [mk_log ERROR text [AExn e]]))
    | Some e' => (Raise e', logged w ERROR text [AExn e])
    end.
Proof.
  cbv [logger conn_rollback bind get_conn set_conn raise logged]. cbn [conn fs logs].
  destruct (server_rollback env (conn w)); reflexivity.
Qed.

Lemma outcome_with_state {A} (p : outcome A * World) (o : outcome A) :
  fst p = o -> p = (o, snd p).
Proof. destruct p; simpl; congruence. Qed.

Lemma path_exists_file (path : string) (f : file) (w : World) :
  fs w !! path = Some f -> path_exists path w = (Ok true, w).
Proof.
  intros H. unfold path_exists. rewrite H. by rewrite bool_decide_eq_true_2.
Qed.

(** ** Case conversion and the feature-name table *)

Lemma is_upper_lower_char (c : ascii) : is_upper (lower_char c) = false.
Proof. destruct c as [[] [] [] [] [] [] [] []]; vm_compute; reflexivity. Qed.

Lemma has_upper_lower (s : string) : has_upper (lower s) = false.
Proof.
  induction s as [|c s IH]; simpl; [done|].
  by rewrite is_upper_lower_char, IH.
Qed.

Lemma lower_fixed (s : string) : has_upper s = false -> lower s = s.
Proof.
  induction s as [|c s IH]; simpl; [done|].
  intros [Hc Hs]%orb_false_iff. unfold lower_char. by rewrite Hc, IH.
Qed.

Lemma feature_mapping_entry (k v : string) :
  feature_mapping !! k = Some v ->
  has_upper k = true /\ has_upper v = false /\ feature_mapping !! v = None.
Proof.
  unfold feature_mapping. intros H%elem_of_list_to_map_2.
  repeat (apply elem_of_cons in H as [H|H];
          [injection H as -> ->; vm_compute; auto|]).
  by apply elem_of_nil in H.
Qed.

Lemma feature_mapping_lowercase (k : string) :
  has_upper k = false -> feature_mapping !! k = None.
Proof.
  intros Hk. destruct (feature_mapping !! k) as [v|] eqn:E; [|done].
  apply feature_mapping_entry in E as [E _]. congruence.
Qed.

(** C10.  Translating feature names (table lookup, lowercase otherwise)
    is idempotent: translating a translated list changes nothing, since
    every translated name is free of capitals and no name free of
    capitals is a key of the table. *)
Theorem translate_idempotent (names : list string) :
  translate (translate names) = translate names /\
  Forall (fun n => has_upper n = false) (translate names) /\
  (forall k, has_upper k = false -> feature_mapping !! k = None).
Proof.
  assert (Hlow : Forall (fun n => has_upper n = false) (translate names)).
  { unfold translate. apply Forall_map, Forall_forall. intros f _. simpl.
    unfold dict_get. destruct (feature_mapping !! f) as [v|] eqn:E; simpl.
    - by apply feature_mapping_entry in E as (_ & ? & _).
    - apply has_upper_lower. }
  split; [|split; [done|apply feature_mapping_lowercase]].
  unfold translate at 1. rewrite <- (map_id (translate names)) at 2.
  apply map_ext_Forall. eapply Forall_impl; [exact Hlow|].
  intros n Hn. simpl. unfold dict_get. rewrite feature_mapping_lowercase by done.
  simpl. by apply lower_fixed.
Qed.

(** The example of the specification. *)
Example translate_example :
  translate ["FuelConsumption"; "Unknown_X"] = ["fuelconsumption"; "unknown_x"].
Proof. vm_compute. reflexivity. Qed.

(** ** Status listing *)

Lemma truthy_nonempty (v : pyval) : truthy v = true -> v <> PNone /\ v <> PStr "".
Proof.
  intros H; split; intros ->; simpl in H; discriminate.
Qed.

Lemma truthy_get (d : gmap string pyval) (k : string) :
  truthy (dict_get_none d k) = true -> nonempty_field d k.
Proof.
  unfold dict_get_none, dict_get, nonempty_field.
  destruct (d !! k) as [v|]; simpl; [|discriminate].
  intros H. exists v. destruct (truthy_nonempty v H). auto.
Qed.

Lemma valid_machines_loop_valid (sf : option string) (result : list item) :
  forall acc l,
    Forall valid_record acc ->
    valid_machines_loop sf result acc = Ok l ->
    Forall valid_record l.
Proof.
  induction result as [|machine result IH]; intros acc l Hacc; simpl.
  - by intros [= <-].
  - destruct machine as [d|v]; [|by apply IH].
    destruct (truthy (dict_get_none d "machineid") && truthy (dict_get_none d "status"))
      eqn:Hv; [|by apply IH].
    apply andb_true_iff in Hv as [Hm Hs].
    assert (Forall valid_record (acc ++ [Row d])).
    { apply Forall_app; split; [done|]. constructor; [|done].
      exists d. eauto using truthy_get. }
    destruct (filter_given sf); [|by apply IH].
    destruct (status_lower d); [|done].
    destruct (contains _ _); by apply IH.
Qed.

(** The loop only ever keeps rows it was given. *)
Lemma valid_machines_loop_sublist (sf : option string) (result : list item) :
  forall acc l,
    valid_machines_loop sf result acc = Ok l ->
    forall it, it ∈ l -> it ∈ acc \/ it ∈ result.
Proof.
  induction result as [|machine result IH]; intros acc l; simpl.
  - intros [= <-]. auto.
  - assert (Hkeep : valid_machines_loop sf result (acc ++ [machine]) = Ok l ->
                    forall it, it ∈ l -> it ∈ acc \/ it ∈ machine :: result).
    { intros H it Hit. destruct (IH _ _ H it Hit) as [Ha|Hr].
      - apply elem_of_app in Ha as [Ha|Ha]; [by left|right].
        apply list_elem_of_singleton in Ha as ->. left.
      - right. by right. }
    assert (Hdrop : valid_machines_loop sf result acc = Ok l ->
                    forall it, it ∈ l -> it ∈ acc \/ it ∈ machine :: result).
    { intros H it Hit. destruct (IH _ _ H it Hit) as [Ha|Hr]; [by left|right; by right]. }
    destruct machine as [d|v]; [|done].
    destruct (truthy _ && truthy _); [|done].
    destruct (filter_given sf); [|done].
    destruct (status_lower d); [|done].
    destruct (contains _ _); done.
Qed.

(** C9.  Whatever the server answers and whatever the filter,
    [get_machines_by_status] returns normally, and every record of its
    result is a row with a non-empty [machineid] and a non-empty
    [status]; rows of the query result lacking either are not in it. *)
Theorem get_machines_by_status_valid (env : Env) (status_filter : option string) (w : World) :
  exists l w',
    get_machines_by_status env status_filter w = (Ok l, w') /\
    Forall valid_record l /\
    (forall it, it ∈ l ->
       exists rows w1, status_query env status_filter w = (Ok (QRows rows), w1) /\ it ∈ rows).
Proof.
  unfold get_machines_by_status, try_except. unfold bind at 1.
  change (match filter_given status_filter with
          | Some f => execute_query env _ (Some [PStr ("%" +:+ f +:+ "%")])
          | None => execute_query env _ None
          end) with (status_query env status_filter).
  destruct (status_query env status_filter w) as [[[l|n]|e] w1].
  - destruct l as [|x l].
    { run. eexists _, _. split; [done|]. split; [done|]. intros it Hit. inversion Hit. }
    run.
    destruct (valid_machines_loop status_filter (x :: l) []) as [vm|e] eqn:E.
    + eexists _, _; split; [done|]. split.
      * eapply valid_machines_loop_valid; [|exact E]; done.
      * intros it Hit. exists (x :: l), w1. split; [done|].
        destruct (valid_machines_loop_sublist _ _ _ _ E it Hit) as [Hnil|Hin]; [|done].
        inversion Hnil.
    + eexists _, _. split; [done|]. split; [done|]. intros it Hit. inversion Hit.
  - run. eexists _, _. split; [done|]. split; [done|]. intros it Hit. inversion Hit.
  - run. eexists _, _. split; [done|]. split; [done|]. intros it Hit. inversion Hit.
Qed.

(** The scenario of the specification: filter "fault" against the
    statuses Fault, faulty and Idle, and a row without a status. *)
Example status_filter_scenario :
  let row id st := Row (list_to_map [("machineid", PStr id); ("status", st)]) in
  let answer := [row "A" (PStr "Fault"); row "B" (PStr "faulty");
                 row "C" (PStr "Idle"); row "D" PNone; row "" (PStr "Fault")] in
  let env := mk_env (fun _ _ _ => inr (mk_cursor (Some answer) 5)) (fun _ _ _ => None)
                    (fun _ => None) (fun _ => None)
                    (fun _ => None) (fun _ => false) None in
  fst (get_machines_by_status env (Some "fault") (mk_world ∅ conn0 []))
  = Ok [row "A" (PStr "Fault"); row "B" (PStr "faulty")].
Proof. vm_compute. reflexivity. Qed.

(** ** Database setup *)

Lemma init_db_loop_ok (env : Env) (ok_text fail_text : string) (qs : list string) :
  forall w, exists w', init_db_loop env ok_text fail_text qs w = (Ok tt, w').
Proof.
  induction qs as [|q qs IH]; intros w; simpl.
  - run. eauto.
  - unfold bind at 1.
    edestruct (try_except_total (A:=unit)) as ([] & w1 & ->); [|apply IH].
    intros e w0. run. eauto.
Qed.

Lemma init_db_ok (env : Env) (w : World) : exists w', init_db env w = (Ok tt, w').
Proof.
  unfold init_db. unfold bind at 1.
  destruct (init_db_loop_ok env "Executed table creation query"
              "Could not execute query: {e}" queries w) as [w1 ->].
  apply init_db_loop_ok.
Qed.

Lemma verify_database_setup_ok (env : Env) (w : World) :
  exists w', verify_database_setup env w = (Ok tt, w').
Proof.
  unfold verify_database_setup.
  generalize ["telemetry"; "user_query_log"; "predictions"]. intros tables. revert w.
  induction tables as [|t tables IH]; intros w; simpl.
  - run. eauto.
  - unfold bind at 1.
    edestruct (try_except_total (A:=unit)) as ([] & w1 & ->); [|apply IH].
    intros e w0. run. eauto.
Qed.

(** Whatever fails inside [setup_complete_database] ends in the handler
    that logs it. *)
Lemma setup_complete_database_returns (env : Env) (csv_file_path : option string)
    (w : World) :
  exists w', setup_complete_database env csv_file_path w = (Ok tt, w').
Proof.
  unfold setup_complete_database.
  edestruct (try_except_total (A:=unit)) as ([] & w' & H); [|eauto].
  intros e w1. run. eauto.
Qed.

(** When the ingestion raises (for instance after a failed insert), the
    setup stops there, skips the verification, logs the error and
    returns. *)
Lemma setup_catches_ingest_failure (env : Env) (path : string) (f : file) (w w1 w2 : World)
    (e : exn) :
  path <> "" ->
  init_db env (logged w INFO "Starting complete database setup..." []) = (Ok tt, w1) ->
  fs w1 !! path = Some f ->
  ingest_csv env path w1 = (Raise e, w2) ->
  setup_complete_database env (Some path) w
  = (Ok tt, logged w2 ERROR "Database setup failed: {e}" [AExn e]).
Proof.
  intros Hne Hinit Hfile Hraise.
  unfold setup_complete_database, try_except.
  unfold bind at 1. unfold logger at 1.
  change (mk_world (fs w) (conn w) (logs w ++ [mk_log INFO "Starting complete database setup..." []]))
    with (logged w INFO "Starting complete database setup..." []).
  unfold bind at 1. rewrite Hinit.
  apply String.eqb_neq in Hne. rewrite Hne.
  unfold bind at 1. unfold bind at 1. unfold bind at 1.
  rewrite (path_exists_file _ _ _ Hfile), Hraise. reflexivity.
Qed.

(** [get_db()] when the instance is still to be made: it is made when
    the server can be reached, and the connection error is logged and
    raised when it cannot. *)
Lemma get_db_first_call (env : Env) (w : World) :
  get_db env false w
  = match server_connect env with
    | None =>
        (Ok true,
         mk_world (fs w) (mk_conn (table (conn w)) [] 0 0)
           (logs w ++ [mk_log INFO "Connected to PostgreSQL database" []]))
    | Some e => (Raise e, logged w ERROR "Database connection failed: {e}" [AExn e])
    end.
Proof.
  cbv [get_db Database_init connect try_except bind].
  destruct (server_connect env) as [e|]; reflexivity.
Qed.

(** C8 as stated fails on its last clause: with a server that cannot be
    reached, the scheduled step raises the connection error out of the
    constructor of the initializer; [setup_complete_database] is not
    entered (the log holds the connection failure only). *)
Lemma init_task_raises_unreachable :
  Dag.task_init_database env_unreachable false (world_csv df_three)
  = (Raise connection_refused,
     mk_world {[ csv_path := FCsv df_three ]} conn0
       [mk_log ERROR "Database connection failed: {e}" [AExn connection_refused]]).
Proof. vm_compute. reflexivity. Qed.

(** C8, amended.  [setup_complete_database] never hands an exception to
    its caller: for every server, file system and path it returns
    normally, and a failure of the ingestion ends in the handler that
    logs it.  The scheduled step [task_init_database] completes normally
    when the process holds the connection already or the server can be
    reached; when it cannot, the step raises the connection error, which
    [connect] has logged, without entering the setup. *)
Theorem setup_complete_database_never_raises (env : Env) (csv_file_path : option string)
    (w : World) :
  (exists w', setup_complete_database env csv_file_path w = (Ok tt, w')) /\
  (forall path f w1 w2 e,
     csv_file_path = Some path ->
     path <> "" ->
     init_db env (logged w INFO "Starting complete database setup..." []) = (Ok tt, w1) ->
     fs w1 !! path = Some f ->
     ingest_csv env path w1 = (Raise e, w2) ->
     setup_complete_database env csv_file_path w
     = (Ok tt, logged w2 ERROR "Database setup failed: {e}" [AExn e])) /\
  (forall _db_instance,
     _db_instance = true \/ server_connect env = None ->
     exists w', Dag.task_init_database env _db_instance w = (Ok tt, w')) /\
  (forall e,
     server_connect env = Some e ->
     Dag.task_init_database env false w
     = (Raise e, logged w ERROR "Database connection failed: {e}" [AExn e])).
Proof.
  split; [apply setup_complete_database_returns|]. split; [|split].
  - intros path f w1 w2 e -> Hne Hinit Hfile Hraise.
    by apply (setup_catches_ingest_failure env path f w w1 w2 e).
  - intros inst Hconn. unfold Dag.task_init_database, DatabaseInitializer_init.
    unfold bind at 1. destruct inst.
    + cbv [get_db ret]. apply setup_complete_database_returns.
    + destruct Hconn as [[=]|Hconn]. rewrite get_db_first_call, Hconn.
      apply setup_complete_database_returns.
  - intros e Hconn. unfold Dag.task_init_database, DatabaseInitializer_init.
    unfold bind at 1. by rewrite get_db_first_call, Hconn.
Qed.

(** A server that refuses every statement once connected: the step
    connects, the setup logs its failure and the step completes.  A
    server that cannot be reached: the step raises. *)
Lemma setup_complete_database_never_raises_witness :
  (exists w', Dag.task_init_database env_down false (world_csv df_three) = (Ok tt, w')) /\
  (exists w', Dag.task_init_database env_unreachable true (world_csv df_three)
              = (Ok tt, w')) /\
  (exists w2,
     setup_complete_database env_strict (Some csv_path) (world_csv df_anonymous)
     = (Ok tt, logged w2 ERROR "Database setup failed: {e}" [AExn not_null_violation])) /\
  fst (Dag.task_init_database env_unreachable false (world_csv df_three))
  = Raise connection_refused.
Proof.
  repeat match goal with |- _ /\ _ => split end.
  - destruct (setup_complete_database_never_raises env_down None (world_csv df_three))
      as (_ & _ & Htask & _).
    apply Htask. right. reflexivity.
  - destruct (setup_complete_database_never_raises env_unreachable None
                (world_csv df_three)) as (_ & _ & Htask & _).
    apply Htask. left. reflexivity.
  - destruct (setup_complete_database_never_raises env_strict (Some csv_path)
                (world_csv df_anonymous)) as (_ & Hcaught & _).
    eexists.
    apply (Hcaught csv_path (FCsv df_anonymous)
             (snd (init_db env_strict
                     (logged (world_csv df_anonymous) INFO
                        "Starting complete database setup..." [])))
             _ not_null_violation).
    + reflexivity.
    + discriminate.
    + apply outcome_with_state. vm_compute. reflexivity.
    + vm_compute. reflexivity.
    + apply outcome_with_state. vm_compute. reflexivity.
  - destruct (setup_complete_database_never_raises env_unreachable None
                (world_csv df_three)) as (_ & _ & _ & Hraise).
    by rewrite (Hraise connection_refused eq_refl).
Defined.

(** A server that is down: nothing of the setup goes through, nothing is
    raised. *)
Example setup_with_server_down :
  fst (setup_complete_database env_down (Some csv_path) (world_csv df_three)) = Ok tt /\
  last (logs (snd (setup_complete_database env_down (Some csv_path) (world_csv df_three))))
  = Some (mk_log ERROR "Database setup failed: {e}" [AExn db_down]).
Proof. vm_compute. auto. Qed.

(** ** Reporting queries *)

(** Every reporting query is recognized as a SELECT, so [execute_query]
    fetches its rows; the statements of [init_db] and the batch insert
    are not, so it commits after them. *)
Lemma reporting_queries_select :
  forallb is_select_query
    [ sql_temperature; sql_humidity; sql_vibration; sql_fuel; sql_humidity_checked;
      sql_by_status "status ILIKE %s AND machineid IS NOT NULL";
      sql_by_status "machineid IS NOT NULL"; sql_comparison_stats ] = true /\
  existsb is_select_query (queries ++ index_queries ++ [insert_query]) = false.
Proof. vm_compute. auto. Qed.

(** What [execute_query] does when the server refuses the statement and
    the rollback goes through. *)
Lemma execute_query_server_error (env : Env) (query : string) (params : option (list pyval))
    (w : World) (e : exn) :
  server_execute env query params (conn w) = inl e ->
  server_rollback env (conn w) = None ->
  execute_query env query params w
  = (Raise e,
     mk_world (fs w)
       (mk_conn (table (conn w)) [] (commits (conn w)) (S (rollbacks (conn w))))
       (logs w ++ [mk_log ERROR "Query failed: {e}" [AExn e]])).
Proof.
  intros H Hr. unfold execute_query, try_except, cursor_execute.
  unfold bind at 1. unfold bind at 1. unfold get_conn at 1. rewrite H.
  unfold raise at 1. rewrite rollback_handler, Hr. reflexivity.
Qed.

(** C5, on the reports without a handler.  The highest-value rankings,
    the lowest temperature, vibration and fuel rankings and the
    comparison report have no handler of their own: whatever
    [execute_query] raises (after logging the failure and calling rollback) they
    raise to their caller, instead of returning an empty result. *)
Theorem facade_query_failure_propagates (env : Env) (limit : Z) (w w1 : World) (e : exn) :
  (execute_query env sql_temperature None w = (Raise e, w1) ->
     get_machines_with_highest_temperature env limit w = (Raise e, w1) /\
     get_machines_with_lowest_temperature env limit w = (Raise e, w1)) /\
  (execute_query env sql_humidity None w = (Raise e, w1) ->
     get_machines_with_highest_humidity env limit w = (Raise e, w1)) /\
  (execute_query env sql_vibration None w = (Raise e, w1) ->
     get_machines_with_highest_vibration env limit w = (Raise e, w1) /\
     get_machines_with_lowest_vibration env limit w = (Raise e, w1)) /\
  (execute_query env sql_fuel None w = (Raise e, w1) ->
     get_machines_with_highest_fuel_consumption env limit w = (Raise e, w1) /\
     get_machines_with_lowest_fuel_consumption env limit w = (Raise e, w1)) /\
  (execute_query env sql_comparison_stats None w = (Raise e, w1) ->
     get_machine_comparison_stats env w = (Raise e, w1)).
Proof.
  unfold get_machines_with_highest_temperature, get_machines_with_lowest_temperature,
    get_machines_with_highest_humidity, get_machines_with_highest_vibration,
    get_machines_with_lowest_vibration, get_machines_with_highest_fuel_consumption,
    get_machines_with_lowest_fuel_consumption, get_machine_comparison_stats.
  repeat match goal with |- _ /\ _ => split end;
    intros H; try split; try (unfold bind at 1; by rewrite H); done.
Qed.

(** The two reports with a handler turn the same failure into an empty
    list and one more log record. *)
Lemma facade_query_failure_caught (env : Env) (limit : Z) (status_filter : option string)
    (w w1 : World) (e : exn) :
  (execute_query env sql_humidity_checked None w = (Raise e, w1) ->
     get_machines_with_lowest_humidity env limit w
     = (Ok [], logged w1 ERROR "Error in get_machines_with_lowest_humidity: {e}" [AExn e])) /\
  (status_query env status_filter w = (Raise e, w1) ->
     get_machines_by_status env status_filter w
     = (Ok [], logged w1 ERROR "Error getting machines by status: {e}" [AExn e])).
Proof.
  split; intros H.
  - unfold get_machines_with_lowest_humidity, try_except. unfold bind at 1.
    by rewrite H.
  - unfold get_machines_by_status, try_except. unfold bind at 1.
    unfold status_query in H. by rewrite H.
Qed.

(** With the server down, the temperature ranking raises the server's
    error (after [execute_query] logged it and rolled back). *)
Lemma facade_query_failure_propagates_witness :
  get_machines_with_highest_temperature env_down 5 (mk_world ∅ conn0 [])
  = (Raise db_down,
     mk_world ∅ (mk_conn [] [] 0 1) [mk_log ERROR "Query failed: {e}" [AExn db_down]]).
Proof.
  apply (facade_query_failure_propagates env_down 5 (mk_world ∅ conn0 [])).
  vm_compute. reflexivity.
Defined.

(** Not every report degrades to an empty result when its query fails. *)
Lemma facade_failure_not_always_empty :
  ~ (forall (env : Env) (limit : Z) (w w1 : World) (e : exn),
       execute_query env sql_temperature None w = (Raise e, w1) ->
       exists w', get_machines_with_highest_temperature env limit w = (Ok [], w')).
Proof.
  intros H.
  destruct (H env_down 5%Z (mk_world ∅ conn0 []) _ db_down
              (execute_query_server_error env_down _ _ _ _ eq_refl eq_refl)) as [w' Hw'].
  vm_compute in Hw'. discriminate.
Qed.

(** The scenario of the specification: machines A (90), B (70), C (110),
    limit 2. *)
Example highest_temperature_scenario :
  let row id t := Row (list_to_map [("machineid", PStr id); ("temperature", PNum t)]) in
  let answer := [row "A" (90 # 1); row "B" (70 # 1); row "C" (110 # 1)] in
  let env := mk_env (fun _ _ _ => inr (mk_cursor (Some answer) 3)) (fun _ _ _ => None)
                    (fun _ => None) (fun _ => None)
                    (fun _ => None) (fun _ => false) None in
  fst (get_machines_with_highest_temperature env 2 (mk_world ∅ conn0 []))
  = Ok [row "C" (110 # 1); row "A" (90 # 1)].
Proof. vm_compute. reflexivity. Qed.

(** ** Feature-name fixer *)

(** C7.  An existing artifact (model or scaler) whose object has no
    [feature_names_in_] attribute: the fix returns [True], raises
    nothing, and leaves the artifact file (and everything else on disk
    and in the database) as it was. *)
Theorem fix_features_without_attribute (env : Env) (path kind : string) (obj : pyobj)
    (w : World) :
  fs w !! path = Some (FPickle obj) ->
  feature_names_in_ obj = None ->
  fix_model_features env path kind w
  = (Ok true,
     logged w INFO "Model {model_type} has no feature_names_in_ attribute, skipped."
       [AStr kind]) /\
  fix_scaler_features env path kind w = (Ok true, w).
Proof.
  intros Hfile Hattr. split.
  - unfold fix_model_features. exec. found Hfile.
    rewrite Hattr. reflexivity.
  - unfold fix_scaler_features. exec. found Hfile.
    rewrite Hattr. by destruct w.
Qed.

Lemma fix_features_without_attribute_witness :
  fix_model_features env_ok model_path "regression" (world_artifact model_path obj_plain)
  = (Ok true,
     logged (world_artifact model_path obj_plain) INFO
       "Model {model_type} has no feature_names_in_ attribute, skipped."
       [AStr "regression"]) /\
  fix_scaler_features env_ok model_path "regression" (world_artifact model_path obj_plain)
  = (Ok true, world_artifact model_path obj_plain).
Proof.
  apply (fix_features_without_attribute env_ok model_path "regression" obj_plain).
  - vm_compute. reflexivity.
  - reflexivity.
Defined.

(** A model whose feature names are read-only: the write is skipped with
    a warning, the model is saved back as it was loaded, [True] is
    returned. *)
Lemma fix_model_features_read_only (env : Env) (path kind : string) (obj : pyobj)
    (names : list string) (e : exn) (w : World) :
  fs w !! path = Some (FPickle obj) ->
  feature_names_in_ obj = Some names ->
  setattr_error obj = Some e ->
  is_attribute_error e = true ->
  write_error env path = None ->
  fix_model_features env path kind w
  = (Ok true,
     mk_world (fs w) (conn w)
       (logs w ++
        [ mk_log WARNING
            "Cannot modify feature_names_in_ for {model_type} (read-only). Skipped update."
            [AStr kind];
          mk_log INFO "Saved model file: {model_path}" [AStr path] ])).
Proof.
  intros Hfile Hattr Hset Hcls Hwr.
  unfold fix_model_features. exec. found Hfile.
  rewrite Hattr, Hset. cbv beta iota. rewrite Hcls, Hwr.
  cbn [fs conn logs]. rewrite (insert_id _ _ _ Hfile).
  by rewrite <- app_assoc.
Qed.

(** C2, on the scaler path.  A scaler whose feature names are read-only:
    the [AttributeError] of the write reaches the outer handler, so the
    fix logs an error (no warning), does not save the scaler and returns
    [False]. *)
Theorem fix_scaler_features_read_only (env : Env) (path kind : string) (obj : pyobj)
    (names : list string) (e : exn) (w : World) :
  fs w !! path = Some (FPickle obj) ->
  feature_names_in_ obj = Some names ->
  setattr_error obj = Some e ->
  is_attribute_error e = true ->
  fix_scaler_features env path kind w
  = (Ok false,
     logged w ERROR "Failed to fix scaler features ({scaler_type}): {e}"
       [AStr kind; AExn e]).
Proof.
  intros Hfile Hattr Hset _.
  unfold fix_scaler_features. exec. found Hfile.
  rewrite Hattr, Hset. reflexivity.
Qed.

Lemma fix_scaler_features_read_only_witness :
  fix_scaler_features env_ok scaler_path "regression" (world_artifact scaler_path obj_read_only)
  = (Ok false,
     logged (world_artifact scaler_path obj_read_only) ERROR
       "Failed to fix scaler features ({scaler_type}): {e}"
       [AStr "regression"; AExn read_only]).
Proof.
  apply (fix_scaler_features_read_only env_ok scaler_path "regression" obj_read_only
           ["Humidity"; "Pressure"] read_only).
  - vm_compute. reflexivity.
  - reflexivity.
  - reflexivity.
  - reflexivity.
Defined.

(** The same artifact under the two paths. *)
Example read_only_model_and_scaler :
  fst (fix_model_features env_ok model_path "regression"
         (world_artifact model_path obj_read_only)) = Ok true /\
  fst (fix_scaler_features env_ok scaler_path "regression"
         (world_artifact scaler_path obj_read_only)) = Ok false.
Proof. vm_compute. auto. Qed.

(** A read-only scaler is not reported as fixed. *)
Lemma read_only_scaler_not_fixed :
  ~ (forall (env : Env) (path kind : string) (obj : pyobj) (names : list string)
            (e : exn) (w : World),
       fs w !! path = Some (FPickle obj) ->
       feature_names_in_ obj = Some names ->
       setattr_error obj = Some e ->
       is_attribute_error e = true ->
       exists w', fix_scaler_features env path kind w = (Ok true, w')).
Proof.
  intros H.
  destruct (H env_ok scaler_path "regression" obj_read_only ["Humidity"; "Pressure"]
              read_only (world_artifact scaler_path obj_read_only))
    as [w' Hw']; try reflexivity.
  vm_compute in Hw'. discriminate.
Qed.

(** ** Scaler test *)

Lemma feature_vector_lookup (features_dict : gmap string pyval) (i : nat) (f : string) :
  feature_order !! i = Some f ->
  feature_vector features_dict !! i = Some (default (PNum 0) (features_dict !! f)).
Proof.
  intros H. unfold feature_vector. rewrite list_lookup_fmap, H. reflexivity.
Qed.

(** C6 as stated fails: a scaler that exists and transforms the vector
    without error, and still the call returns [None], not the vector. *)
Lemma scaler_vector_not_returned :
  fs (world_artifact scaler_path obj_scaler) !! scaler_path = Some (FPickle obj_scaler) /\
  transform obj_scaler = Some halve /\
  (exists scaled, halve (feature_vector test_data) = inr scaled /\ length scaled = 10 /\
     fst (test_scaler_with_real_data scaler_path test_data
            (world_artifact scaler_path obj_scaler)) <> Ok (Some scaled)) /\
  fst (test_scaler_with_real_data scaler_path test_data
         (world_artifact scaler_path obj_scaler)) = Ok None.
Proof.
  split; [vm_compute; reflexivity|]. split; [reflexivity|]. split.
  - eexists. split; [reflexivity|]. split; [reflexivity|].
    vm_compute. discriminate.
  - vm_compute. reflexivity.
Qed.

(** C6, amended.  The vector handed to the scaler has the ten canonical
    features in their fixed order, a feature absent from the mapping
    counting as 0.0.  The call never raises and returns [None] on every
    path, touching neither files nor database: when the scaler exists
    and its transform succeeds the transformed row is logged, not
    returned; when the transform raises, when the object has no
    transform, or when the file cannot be loaded, the exception is
    caught and logged as an error; when the file is missing an error is
    logged. *)
Theorem test_scaler_logs_only (path : string) (features_dict : gmap string pyval)
    (w : World) :
  length (feature_vector features_dict) = 10 /\
  (forall i f, feature_order !! i = Some f ->
     feature_vector features_dict !! i = Some (default (PNum 0) (features_dict !! f))) /\
  (exists w', test_scaler_with_real_data path features_dict w = (Ok None, w') /\
     fs w' = fs w /\ conn w' = conn w) /\
  (forall obj f scaled,
     fs w !! path = Some (FPickle obj) ->
     transform obj = Some f ->
     f (feature_vector features_dict) = inr scaled ->
     test_scaler_with_real_data path features_dict w
     = (Ok None, logged w INFO "Scaled output for {scaler_path}: {scaled[0]}"
                   [AStr path; AVals scaled])) /\
  (forall obj f e,
     fs w !! path = Some (FPickle obj) ->
     transform obj = Some f ->
     f (feature_vector features_dict) = inl e ->
     test_scaler_with_real_data path features_dict w
     = (Ok None, logged w ERROR "Scaler test failed: {e}" [AExn e])) /\
  (forall obj,
     fs w !! path = Some (FPickle obj) ->
     transform obj = None ->
     test_scaler_with_real_data path features_dict w
     = (Ok None, logged w ERROR "Scaler test failed: {e}"
                   [AExn (mk_exn AttributeError "object has no attribute 'transform'")])) /\
  (forall file,
     fs w !! path = Some file ->
     (forall obj, file <> FPickle obj) ->
     test_scaler_with_real_data path features_dict w
     = (Ok None, logged w ERROR "Scaler test failed: {e}"
                   [AExn (mk_exn PicklingError path)])) /\
  (fs w !! path = None ->
     test_scaler_with_real_data path features_dict w
     = (Ok None, logged w ERROR "Scaler not found: {scaler_path}" [AStr path])).
Proof.
  split; [reflexivity|]. split; [apply feature_vector_lookup|].
  repeat match goal with |- _ /\ _ => split end.
  - destruct (fs w !! path) as [[df|obj|]|] eqn:Hfile;
      unfold test_scaler_with_real_data; exec.
    + found Hfile. eauto.
    + found Hfile.
      destruct (transform obj) as [f|]; [|eauto].
      destruct (f (feature_vector features_dict)); eauto.
    + found Hfile. eauto.
    + rewrite bool_decide_eq_false_2 by (rewrite Hfile; intros [? [=]]).
      cbv beta iota. eauto.
  - intros obj f scaled Hfile Hf Hscaled.
    unfold test_scaler_with_real_data. exec. found Hfile.
    rewrite Hf, Hscaled. reflexivity.
  - intros obj f e Hfile Hf Hraise.
    unfold test_scaler_with_real_data. exec. found Hfile.
    rewrite Hf, Hraise. reflexivity.
  - intros obj Hfile Hf.
    unfold test_scaler_with_real_data. exec. found Hfile.
    rewrite Hf. reflexivity.
  - intros file Hfile Hno.
    unfold test_scaler_with_real_data. exec. found Hfile.
    destruct file as [df|obj|]; [reflexivity| |reflexivity].
    by destruct (Hno obj).
  - intros Hfile. unfold test_scaler_with_real_data. exec.
    rewrite Hfile. rewrite bool_decide_eq_false_2 by (intros [? [=]]). reflexivity.
Qed.

(** The scheduled task's scaler and data: the halved row is logged.  A
    scaler that rejects the row, an artifact without a transform, a file
    that is no pickle and a missing file: one error record each, and
    [None] every time. *)
Lemma test_scaler_logs_only_witness :
  test_scaler_with_real_data scaler_path test_data (world_artifact scaler_path obj_scaler)
  = (Ok None,
     logged (world_artifact scaler_path obj_scaler) INFO
       "Scaled output for {scaler_path}: {scaled[0]}"
       [AStr scaler_path;
        AVals (map PNum
                 [(21 # 2) / 2; (4 # 1) / 2; (68 # 1) / 2; (1000 # 1) / 2; (185 # 1) / 2;
                  (120 # 1) / 2; (1756684800 # 1) / 2; (12 # 1) / 2; (2 # 1) / 2;
                  (9 # 1) / 2]%Q)]) /\
  test_scaler_with_real_data scaler_path test_data (world_artifact scaler_path obj_unfitted)
  = (Ok None,
     logged (world_artifact scaler_path obj_unfitted) ERROR
       "Scaler test failed: {e}" [AExn not_fitted]) /\
  test_scaler_with_real_data scaler_path test_data (world_artifact scaler_path obj_plain)
  = (Ok None,
     logged (world_artifact scaler_path obj_plain) ERROR
       "Scaler test failed: {e}"
       [AExn (mk_exn AttributeError "object has no attribute 'transform'")]) /\
  test_scaler_with_real_data csv_path test_data (world_csv df_three)
  = (Ok None,
     logged (world_csv df_three) ERROR
       "Scaler test failed: {e}" [AExn (mk_exn PicklingError csv_path)]) /\
  test_scaler_with_real_data "missing.pkl" test_data (world_artifact scaler_path obj_scaler)
  = (Ok None,
     logged (world_artifact scaler_path obj_scaler) ERROR
       "Scaler not found: {scaler_path}" [AStr "missing.pkl"]).
Proof.
  repeat match goal with |- _ /\ _ => split end.
  - apply (test_scaler_logs_only scaler_path test_data (world_artifact scaler_path obj_scaler))
      with (obj := obj_scaler) (f := halve).
    + vm_compute. reflexivity.
    + reflexivity.
    + reflexivity.
  - destruct (test_scaler_logs_only scaler_path test_data
                (world_artifact scaler_path obj_unfitted))
      as (_ & _ & _ & _ & Hraise & _).
    apply (Hraise obj_unfitted refuse not_fitted).
    + vm_compute. reflexivity.
    + reflexivity.
    + reflexivity.
  - destruct (test_scaler_logs_only scaler_path test_data
                (world_artifact scaler_path obj_plain))
      as (_ & _ & _ & _ & _ & Hnone & _).
    apply (Hnone obj_plain).
    + vm_compute. reflexivity.
    + reflexivity.
  - destruct (test_scaler_logs_only csv_path test_data (world_csv df_three))
      as (_ & _ & _ & _ & _ & _ & Hload & _).
    apply (Hload (FCsv df_three)).
    + vm_compute. reflexivity.
    + intros obj. discriminate.
  - apply (test_scaler_logs_only "missing.pkl" test_data
             (world_artifact scaler_path obj_scaler)).
    vm_compute. reflexivity.
Defined.

(** A feature missing from the mapping: its slot is 0.0. *)
Example feature_vector_default :
  feature_vector (delete "humidity" test_data) !! 2 = Some (PNum 0) /\
  length (feature_vector (delete "humidity" test_data)) = 10.
Proof. vm_compute. auto. Qed.

(** ** Cleaning: defaults for missing values *)

Lemma column_mapping_lowercase (k v : string) :
  column_mapping !! k = Some v -> has_upper v = false.
Proof.
  unfold column_mapping. intros H%elem_of_list_to_map_2.
  repeat (apply elem_of_cons in H as [H|H]; [injection H as -> ->; reflexivity|]).
  by apply elem_of_nil in H.
Qed.

Lemma converted_columns_lowercase (df : DataFrame) :
  map lower (columns (_convert_column_names df)) = columns (_convert_column_names df).
Proof.
  unfold _convert_column_names; cbn [columns].
  rewrite <- (map_id (map _ (columns df))) at 2.
  apply map_ext_Forall, Forall_map, Forall_forall. intros col _. cbv beta.
  apply lower_fixed. unfold dict_get.
  destruct (column_mapping !! col) as [v|] eqn:E; simpl.
  - by apply column_mapping_lowercase in E.
  - apply has_upper_lower.
Qed.

Lemma fill_values_populated (c : string) (d : pyval) :
  fill_values !! c = Some d -> populated d.
Proof.
  unfold fill_values. intros H%elem_of_list_to_map_2.
  repeat (apply elem_of_cons in H as [H|H]; [injection H as -> ->; reflexivity|]).
  by apply elem_of_nil in H.
Qed.







(** The scenario of the specification: three rows, one without
    humidity; three tuples, the missing cell filled with 65.0. *)
Example three_rows_one_gap :
  length (insert_tuples (prepared df_three)) = 3 /\
  (forall t, insert_tuples (prepared df_three) !! 1 = Some t -> t !! 7 = Some (PNum (65 # 1))).
Proof.
  split; [reflexivity|]. intros t Ht. vm_compute in Ht. by injection Ht as <-.
Qed.

(** ** Batch insert *)

Lemma paginate_go_concat {A} (page_size : nat) :
  forall fuel (seq : list A),
    0 < page_size -> length seq <= fuel ->
    concat (paginate_go fuel page_size seq) = seq.
Proof.
  induction fuel as [|fuel IH]; intros seq Hn Hlen.
  - destruct seq; [done|simpl in Hlen; lia].
  - destruct seq as [|x seq]; [done|].
    change (paginate_go (S fuel) page_size (x :: seq))
      with (take page_size (x :: seq)
              :: paginate_go fuel page_size (drop page_size (x :: seq))).
    simpl concat. rewrite IH; [apply take_drop|done|].
    rewrite length_drop. simpl in *. lia.
Qed.

Lemma paginate_concat {A} (page_size : nat) (seq : list A) :
  0 < page_size -> concat (paginate page_size seq) = seq.
Proof. intros. by apply paginate_go_concat. Qed.

(** Running the pages touches nothing but the open transaction; when a
    page is refused, the refusal is what is raised. *)
Lemma execute_pages_spec (env : Env) (q : string) :
  forall pages w,
    match execute_pages env q pages w with
    | (Ok _, w') =>
        fs w' = fs w /\ logs w' = logs w /\ same_committed (conn w) (conn w') /\
        pending (conn w') = pending (conn w) ++ concat pages
    | (Raise e, w') =>
        fs w' = fs w /\ logs w' = logs w /\ same_committed (conn w) (conn w') /\
        exists page c, page ∈ pages /\ server_execute_page env q page c = Some e
    end.
Proof.
  induction pages as [|page pages IH]; intros w; simpl.
  - cbv [ret same_committed]. by rewrite app_nil_r.
  - cbv [bind get_conn].
    destruct (server_execute_page env q page (conn w)) as [e|] eqn:E.
    + cbv [raise same_committed]. repeat split; try done.
      exists page, (conn w). split; [left|done].
    + cbv [set_conn]. set (w1 := mk_world _ _ _).
      specialize (IH w1). destruct (execute_pages env q pages w1) as [[[]|e] w'].
      * destruct IH as (Hfs & Hlog & (Ht & Hc & Hr) & Hp).
        unfold same_committed. rewrite Hfs, Hlog, Ht, Hc, Hr, Hp. subst w1; simpl.
        repeat split. by rewrite <- app_assoc.
      * destruct IH as (Hfs & Hlog & (Ht & Hc & Hr) & page' & c & Hin & He).
        unfold same_committed. rewrite Hfs, Hlog, Ht, Hc, Hr. subst w1; simpl.
        repeat split. exists page', c. split; [by right|done].
Qed.

Lemma execute_pages_accepted (env : Env) (q : string) :
  (forall page c, server_execute_page env q page c = None) ->
  forall pages w, exists w', execute_pages env q pages w = (Ok tt, w').
Proof.
  intros Hok. induction pages as [|page pages IH]; intros w; simpl.
  - cbv [ret]. eauto.
  - cbv [bind get_conn set_conn]. rewrite Hok. apply IH.
Qed.

Lemma insert_rows_cases (env : Env) (df : DataFrame) (w : World) :
  match _insert_rows env df w with
  | (Ok n, w') =>
      n = length (insert_tuples df) /\ fs w' = fs w /\
      committed_once (insert_tuples df) (conn w) (conn w')
  | (Raise e, w') =>
      fs w' = fs w /\ nothing_committed (conn w) (conn w') /\
      (rolled_back (conn w) (conn w') \/
       rollbacks (conn w') = rollbacks (conn w) /\ server_rollback env (conn w') = Some e)
  end.
Proof.
  unfold _insert_rows, try_except, execute_values. unfold bind at 1.
  pose proof (execute_pages_spec env insert_query (paginate 1000 (insert_tuples df)) w) as H.
  destruct (execute_pages env insert_query (paginate 1000 (insert_tuples df)) w)
    as [[[]|e] w1].
  - destruct H as (Hfs & Hlog & (Ht & Hc & Hr) & Hp).
    rewrite paginate_concat in Hp by lia.
    unfold bind at 1. unfold conn_commit at 1. unfold bind at 1. unfold get_conn at 1.
    destruct (server_commit env (conn w1)) as [e|].
    + unfold raise at 1. rewrite rollback_handler.
      destruct (server_rollback env (conn w1)) as [e'|] eqn:Hrb;
        cbv [rolled_back nothing_committed logged]; cbn [conn fs table pending commits rollbacks];
        rewrite Hfs, Ht, Hc, ?Hr; auto 10.
    + cbv [bind set_conn logger ret committed_once]. simpl. by rewrite Hfs, Ht, Hc, Hr, Hp.
  - destruct H as (Hfs & Hlog & (Ht & Hc & Hr) & _).
    rewrite rollback_handler.
    destruct (server_rollback env (conn w1)) as [e'|] eqn:Hrb;
      cbv [rolled_back nothing_committed logged]; cbn [conn fs table pending commits rollbacks];
      rewrite Hfs, Ht, Hc, ?Hr; auto 10.
Qed.

(** The batch insert after a page was refused: the refusal is logged,
    and raised again once the rollback went through; the error of a
    rollback that fails is raised in its place. *)
Lemma insert_rows_page_refused (env : Env) (df : DataFrame) (w w1 : World) (e : exn) :
  execute_values env insert_query (insert_tuples df) 1000 w = (Raise e, w1) ->
  _insert_rows env df w
  = match server_rollback env (conn w1) with
    | None =>
        (Raise e,
         mk_world (fs w1)
           (mk_conn (table (conn w1)) [] (commits (conn w1)) (S (rollbacks (conn w1))))
           (logs w1 ++ [mk_log ERROR "Batch insert failed: {e}" [AExn e]]))
    | Some e' => (Raise e', logged w1 ERROR "Batch insert failed: {e}" [AExn e])
    end.
Proof.
  intros Hfail. unfold _insert_rows, try_except. unfold bind at 1. rewrite Hfail.
  apply rollback_handler.
Qed.

Lemma insert_rows_accepted (env : Env) (df : DataFrame) (w : World) :
  (forall page c, server_execute_page env insert_query page c = None) ->
  (forall c, server_commit env c = None) ->
  exists w', _insert_rows env df w = (Ok (length (insert_tuples df)), w').
Proof.
  intros Hpage Hcommit.
  unfold _insert_rows, try_except, execute_values. unfold bind at 1.
  destruct (execute_pages_accepted env insert_query Hpage
              (paginate 1000 (insert_tuples df)) w) as [w1 ->].
  cbv [bind conn_commit get_conn]. rewrite Hcommit.
  cbv [set_conn logger ret]. eauto.
Qed.

(** [ingest_csv] on a readable file: read, clean, insert, and pass on
    what the insert returns or raises. *)
Lemma ingest_csv_readable (env : Env) (path : string) (src : DataFrame) (w : World) :
  fs w !! path = Some (FCsv src) ->
  ingest_csv env path w
  = match _insert_rows env (prepared src) (at_insert w path src) with
    | (Ok n, w') => (Ok n, logged w' INFO "Successfully ingested {count} rows" [ALen n])
    | (Raise e, w') => (Raise e, logged w' ERROR "Ingestion failed: {e}" [AExn e])
    end.
Proof.
  intros Hfile. unfold ingest_csv, try_except.
  unfold bind at 1. unfold logger at 1.
  unfold bind at 1. unfold read_csv at 1. cbn [fs]. rewrite Hfile.
  unfold bind at 1. unfold logger at 1.
  unfold bind at 1. unfold at_insert, logged, prepared. cbn [fs conn logs].
  destruct (_insert_rows env _ _) as [[n|e] w']; reflexivity.
Qed.

Lemma cleaning_keeps_rows (df : DataFrame) :
  df_len (prepared df) = df_len df /\ length (insert_tuples (prepared df)) = df_len df.
Proof.
  unfold insert_tuples, prepared, _clean_dataframe, fillna, _convert_column_names, df_len.
  cbn [rows columns]. by rewrite !length_map.
Qed.

(** C3.  For a readable source file: cleaning keeps the number of rows,
    one tuple is built per row, and the count [ingest_csv] returns is the
    number of rows read, the table having grown by exactly these tuples.
    It does return that count whenever the server accepts the insert. *)
Theorem ingest_csv_row_count (env : Env) (path : string) (df : DataFrame) (w : World) :
  fs w !! path = Some (FCsv df) ->
  df_len (prepared df) = df_len df /\
  length (insert_tuples (prepared df)) = df_len df /\
  (forall n w', ingest_csv env path w = (Ok n, w') ->
     n = df_len df /\ committed_once (insert_tuples (prepared df)) (conn w) (conn w')) /\
  ((forall page c, server_execute_page env insert_query page c = None) ->
   (forall c, server_commit env c = None) ->
   exists w', ingest_csv env path w = (Ok (df_len df), w')).
Proof.
  intros Hfile. destruct (cleaning_keeps_rows df) as [Hclean Htuples].
  split; [done|]. split; [done|]. split.
  - intros n w'. rewrite (ingest_csv_readable _ _ _ _ Hfile).
    pose proof (insert_rows_cases env (prepared df) (at_insert w path df)) as H.
    destruct (_insert_rows env (prepared df) (at_insert w path df)) as [[m|e] w1];
      [|discriminate].
    intros [= <- <-]. destruct H as (-> & _ & H). split; [done|]. exact H.
  - intros Hpage Hcommit. rewrite (ingest_csv_readable _ _ _ _ Hfile).
    destruct (insert_rows_accepted env (prepared df) (at_insert w path df) Hpage Hcommit)
      as [w1 ->].
    rewrite Htuples. eauto.
Qed.

Lemma ingest_csv_row_count_witness :
  exists w',
    ingest_csv env_ok csv_path (world_csv df_three) = (Ok 3, w') /\
    length (table (conn w')) = 3.
Proof.
  destruct (ingest_csv_row_count env_ok csv_path df_three (world_csv df_three))
    as (_ & _ & Hcount & Hreturns).
  { vm_compute. reflexivity. }
  destruct Hreturns as [w' Hw']; [reflexivity|reflexivity|].
  exists w'. split; [exact Hw'|].
  destruct (Hcount _ _ Hw') as (_ & Htable & _). rewrite Htable. reflexivity.
Defined.

(** C4 as stated fails when the connection is lost mid-batch: the
    second page is refused, the rollback in the handler raises too, and
    what reaches the caller of [ingest_csv] is the rollback's error, not
    the insert's, with nothing rolled back on this side (the first page
    is still pending).  Nothing was committed all the same. *)
Lemma insert_failure_not_rolled_back :
  let w := world_csv df_two_pages in
  let tuples := insert_tuples (prepared df_two_pages) in
  fst (execute_values env_lost insert_query tuples 1000 (at_insert w csv_path df_two_pages))
  = Raise connection_lost /\
  fst (ingest_csv env_lost csv_path w) = Raise connection_closed /\
  connection_closed <> connection_lost /\
  ~ rolled_back (conn w) (conn (snd (ingest_csv env_lost csv_path w))) /\
  rollbacks (conn (snd (ingest_csv env_lost csv_path w))) = 0 /\
  length (pending (conn (snd (ingest_csv env_lost csv_path w)))) = 1000 /\
  table (conn (snd (ingest_csv env_lost csv_path w))) = [].
Proof.
  cbv zeta. split; [vm_compute; reflexivity|]. split; [vm_compute; reflexivity|].
  split; [discriminate|]. split.
  - intros (_ & _ & _ & Hr). vm_compute in Hr. discriminate.
  - vm_compute. auto.
Qed.

(** C4, amended.  The batch insert is all or nothing.  When
    [_insert_rows] returns, the whole batch has been committed, by one
    commit, and nothing was rolled back; when it raises, nothing was
    committed: the table is what it was, and either the open transaction
    is gone (one rollback) or the rollback itself failed and its error is
    the one raised.  A refused page makes it raise that refusal once the
    rollback went through, and the rollback's error otherwise, the
    refusal being logged either way.  [ingest_csv] raises to its caller
    whatever [_insert_rows] raised, with nothing committed. *)
Theorem insert_all_or_nothing (env : Env) (df : DataFrame) (w : World) :
  match _insert_rows env df w with
  | (Ok n, w') =>
      n = length (insert_tuples df) /\ fs w' = fs w /\
      committed_once (insert_tuples df) (conn w) (conn w')
  | (Raise e, w') =>
      fs w' = fs w /\ nothing_committed (conn w) (conn w') /\
      (rolled_back (conn w) (conn w') \/
       rollbacks (conn w') = rollbacks (conn w) /\ server_rollback env (conn w') = Some e)
  end /\
  (forall e w1,
     execute_values env insert_query (insert_tuples df) 1000 w = (Raise e, w1) ->
     server_rollback env (conn w1) = None ->
     exists w', _insert_rows env df w = (Raise e, w') /\ rolled_back (conn w) (conn w')) /\
  (forall e e' w1,
     execute_values env insert_query (insert_tuples df) 1000 w = (Raise e, w1) ->
     server_rollback env (conn w1) = Some e' ->
     _insert_rows env df w = (Raise e', logged w1 ERROR "Batch insert failed: {e}" [AExn e]) /\
     nothing_committed (conn w) (conn w1)) /\
  (forall path src e w1,
     fs w !! path = Some (FCsv src) ->
     df = prepared src ->
     _insert_rows env df (at_insert w path src) = (Raise e, w1) ->
     ingest_csv env path w = (Raise e, logged w1 ERROR "Ingestion failed: {e}" [AExn e]) /\
     nothing_committed (conn w) (conn w1)).
Proof.
  split; [apply insert_rows_cases|]. split; [|split].
  - intros e w1 Hfail Hrb.
    rewrite (insert_rows_page_refused _ _ _ _ _ Hfail), Hrb.
    eexists. split; [reflexivity|].
    pose proof (execute_pages_spec env insert_query
                  (paginate 1000 (insert_tuples df)) w) as H.
    unfold execute_values in Hfail. rewrite Hfail in H.
    destruct H as (_ & _ & (Ht & Hc & Hr) & _).
    unfold rolled_back. cbn [conn table pending commits rollbacks].
    by rewrite Ht, Hc, Hr.
  - intros e e' w1 Hfail Hrb.
    rewrite (insert_rows_page_refused _ _ _ _ _ Hfail), Hrb. split; [done|].
    pose proof (execute_pages_spec env insert_query
                  (paginate 1000 (insert_tuples df)) w) as H.
    unfold execute_values in Hfail. rewrite Hfail in H.
    destruct H as (_ & _ & (Ht & Hc & _) & _). by split.
  - intros path src e w1 Hfile -> Hraise.
    rewrite (ingest_csv_readable _ _ _ _ Hfile), Hraise. split; [done|].
    pose proof (insert_rows_cases env (prepared src) (at_insert w path src)) as H.
    rewrite Hraise in H. apply H.
Qed.

(** A batch with a row the server refuses: the insert raises the
    refusal, [ingest_csv] raises it to its caller, and the table is as
    before.  With the connection lost, the refusal is logged and the
    rollback's error raised. *)
Lemma insert_all_or_nothing_witness :
  (exists w',
     ingest_csv env_strict csv_path (world_csv df_anonymous)
     = (Raise not_null_violation, w') /\
     table (conn w') = [] /\ commits (conn w') = 0) /\
  (exists w',
     _insert_rows env_strict (prepared df_anonymous) (world_csv df_anonymous)
     = (Raise not_null_violation, w') /\
     rolled_back conn0 (conn w')) /\
  _insert_rows env_lost (prepared df_anonymous)
    (mk_world ∅ (mk_conn [] [row_full] 0 0) [])
  = (Raise connection_closed,
     mk_world ∅ (mk_conn [] [row_full] 0 0)
       [mk_log ERROR "Batch insert failed: {e}" [AExn connection_lost]]).
Proof.
  split; [|split].
  - destruct (insert_all_or_nothing env_strict (prepared df_anonymous)
                (world_csv df_anonymous)) as (_ & _ & _ & Hingest).
    destruct (Hingest csv_path df_anonymous not_null_violation
                (snd (_insert_rows env_strict (prepared df_anonymous)
                        (at_insert (world_csv df_anonymous) csv_path df_anonymous))))
      as [Hraise (Ht & Hc)].
    + vm_compute. reflexivity.
    + reflexivity.
    + apply outcome_with_state. vm_compute. reflexivity.
    + eexists. split; [exact Hraise|]. cbn [logged conn].
      rewrite Ht, Hc. split; reflexivity.
  - destruct (insert_all_or_nothing env_strict (prepared df_anonymous)
                (world_csv df_anonymous)) as (_ & Hrefused & _).
    apply (Hrefused not_null_violation
             (snd (execute_values env_strict insert_query
                     (insert_tuples (prepared df_anonymous)) 1000
                     (world_csv df_anonymous)))).
    + apply outcome_with_state. vm_compute. reflexivity.
    + reflexivity.
  - destruct (insert_all_or_nothing env_lost (prepared df_anonymous)
                (mk_world ∅ (mk_conn [] [row_full] 0 0) [])) as (_ & _ & Hlost & _).
    apply (Hlost connection_lost connection_closed
             (mk_world ∅ (mk_conn [] [row_full] 0 0) [])).
    + vm_compute. reflexivity.
    + reflexivity.
Defined.

(** 1001 rows, the last without a machine id: the first page of 1000 is
    written, the second is refused, and nothing of the batch is in the
    table afterwards. *)
Example two_pages_rolled_back :
  let w := world_csv df_two_pages in
  let tuples := insert_tuples (prepared df_two_pages) in
  length (pending (conn (snd (execute_values env_strict insert_query tuples 1000 w)))) = 1000 /\
  fst (execute_values env_strict insert_query tuples 1000 w) = Raise not_null_violation /\
  fst (ingest_csv env_strict csv_path w) = Raise not_null_violation /\
  conn (snd (ingest_csv env_strict csv_path w)) = mk_conn [] [] 0 1.
Proof. vm_compute. auto. Qed.

(** The same file without the anonymous row is committed whole. *)
Example batch_committed_once :
  let w := snd (ingest_csv env_strict csv_path (world_csv df_three)) in
  length (table (conn w)) = 3 /\ commits (conn w) = 1 /\ rollbacks (conn w) = 0.
Proof. vm_compute. auto. Qed.

(** * Further properties *)

Import Dag Behaviour.

(** ** How relations between worlds pass through the combinators *)

Section Stable.
Variable P : World -> World -> Prop.
Hypothesis P_refl : forall w, P w w.
Hypothesis P_trans : forall w1 w2 w3, P w1 w2 -> P w2 w3 -> P w1 w3.
Hypothesis P_log : forall w l text args, P w (logged w l text args).

Lemma stable_ret {A} (a : A) : stable P (ret a).
Proof. intros w. apply P_refl. Qed.

Lemma stable_raise {A} (e : exn) : stable P (raise (A:=A) e).
Proof. intros w. apply P_refl. Qed.

Lemma stable_lift {A} (o : outcome A) : stable P (lift o).
Proof. intros w. apply P_refl. Qed.

Lemma stable_logger (l : level) (text : string) (args : list log_arg) :
  stable P (logger l text args).
Proof. intros w. apply P_log. Qed.

Lemma stable_bind {A B} (m : M A) (k : A -> M B) :
  stable P m -> (forall a, stable P (k a)) -> stable P (bind m k).
Proof.
  intros Hm Hk w. unfold bind. specialize (Hm w).
  destruct (m w) as [[a|e] w1]; simpl in *; [|done].
  eapply P_trans; [exact Hm|apply Hk].
Qed.

Lemma stable_try_except {A} (body : M A) (handler : exn -> M A) :
  stable P body -> (forall e, stable P (handler e)) -> stable P (try_except body handler).
Proof.
  intros Hb Hh w. unfold try_except. specialize (Hb w).
  destruct (body w) as [[a|e] w1]; simpl in *; [done|].
  eapply P_trans; [exact Hb|apply Hh].
Qed.

Lemma stable_try_except_AttributeError {A} (body handler : M A) :
  stable P body -> stable P handler -> stable P (try_except_AttributeError body handler).
Proof.
  intros Hb Hh w. unfold try_except_AttributeError. specialize (Hb w).
  destruct (body w) as [[a|e] w1]; simpl in *; [done|].
  destruct (is_attribute_error e); [|done].
  eapply P_trans; [exact Hb|apply Hh].
Qed.

Lemma stable_path_exists (path : string) : stable P (path_exists path).
Proof. intros w. apply P_refl. Qed.

Lemma stable_joblib_load (path : string) : stable P (joblib_load path).
Proof. intros w. unfold joblib_load. destruct (fs w !! path) as [[]|]; apply P_refl. Qed.

Lemma stable_read_csv (path : string) : stable P (read_csv path).
Proof. intros w. unfold read_csv. destruct (fs w !! path) as [[]|]; apply P_refl. Qed.

End Stable.

Lemma read_only_refl w : read_only w w.
Proof. by repeat split. Qed.

Lemma read_only_trans w1 w2 w3 : read_only w1 w2 -> read_only w2 w3 -> read_only w1 w3.
Proof. intros (?&?&?) (?&?&?). repeat split; congruence. Qed.

Lemma read_only_log w l text args : read_only w (logged w l text args).
Proof. by repeat split. Qed.

Lemma settled_refl w : settled w w.
Proof. intros H. by repeat split. Qed.

Lemma settled_trans w1 w2 w3 : settled w1 w2 -> settled w2 w3 -> settled w1 w3.
Proof.
  intros H12 H23 H. destruct (H12 H) as (?&Hp&?). destruct (H23 Hp) as (?&?&?).
  repeat split; congruence.
Qed.

Lemma settled_log w l text args : settled w (logged w l text args).
Proof. intros H. by repeat split. Qed.

Lemma offline_refl w : offline w w.
Proof. done. Qed.

Lemma offline_trans w1 w2 w3 : offline w1 w2 -> offline w2 w3 -> offline w1 w3.
Proof. unfold offline. congruence. Qed.

Lemma offline_log w l text args : offline w (logged w l text args).
Proof. done. Qed.

(** ** [execute_query] *)

(** The ways [execute_query] can end. *)
Lemma execute_query_cases (env : Env) (query : string) (params : option (list pyval))
    (w : World) :
  match execute_query env query params w with
  | (Ok r, w') =>
      fs w' = fs w /\ logs w' = logs w /\
      if is_select_query query
      then (exists l, r = QRows l) /\ conn w' = conn w
      else (exists n, r = QCount n) /\ committed (conn w) (conn w')
  | (Raise e, w') =>
      fs w' = fs w /\
      exists e0,
        logs w' = logs w ++ [mk_log ERROR "Query failed: {e}" [AExn e0]] /\
        match server_rollback env (conn w) with
        | None => e = e0 /\ rolled_back (conn w) (conn w')
        | Some e' => e = e' /\ conn w' = conn w
        end
  end.
Proof.
  assert (Hh : forall e0,
    match (logger ERROR "Query failed: {e}" [AExn e0] ;; conn_rollback env ;;
           raise (A:=qresult) e0)%py w with
    | (Ok r, w') =>
        fs w' = fs w /\ logs w' = logs w /\
        if is_select_query query
        then (exists l, r = QRows l) /\ conn w' = conn w
        else (exists n, r = QCount n) /\ committed (conn w) (conn w')
    | (Raise e, w') =>
        fs w' = fs w /\
        exists e0,
          logs w' = logs w ++ [mk_log ERROR "Query failed: {e}" [AExn e0]] /\
          match server_rollback env (conn w) with
          | None => e = e0 /\ rolled_back (conn w) (conn w')
          | Some e' => e = e' /\ conn w' = conn w
          end
    end).
  { intros e0. rewrite rollback_handler.
    destruct (server_rollback env (conn w)) as [e'|];
      (split; [done|]); exists e0; by repeat split. }
  unfold execute_query, try_except, cursor_execute.
  unfold bind at 1. unfold bind at 1. unfold get_conn at 1.
  destruct (server_execute env query params (conn w)) as [e|cur].
  { unfold raise at 1. apply Hh. }
  unfold ret at 1.
  destruct (is_select_query query).
  - unfold fetchall. destruct (result_set cur) as [l|].
    + cbv [bind ret]. eauto.
    + unfold bind at 1. unfold raise at 1. apply Hh.
  - unfold bind at 1. unfold conn_commit at 1. unfold bind at 1. unfold get_conn at 1.
    destruct (server_commit env (conn w)) as [e|].
    + unfold raise at 1. apply Hh.
    + cbv [bind set_conn ret committed]. simpl. eauto 10.
Qed.

(** X1.  When [execute_query] raises, whatever the reason (the server
    refused the statement, there was nothing to fetch, the commit
    failed), it has logged the error of the statement and committed
    nothing: the committed table and the files are as before.  When the
    rollback goes through, the error raised is the one logged and no
    transaction is left open; when the rollback fails too, its error is
    the one raised and the connection is left as it was. *)
Theorem execute_query_failure_rolls_back (env : Env) (query : string)
    (params : option (list pyval)) (w w' : World) (e : exn) :
  execute_query env query params w = (Raise e, w') ->
  fs w' = fs w /\ nothing_committed (conn w) (conn w') /\
  exists e0,
    logs w' = logs w ++ [mk_log ERROR "Query failed: {e}" [AExn e0]] /\
    match server_rollback env (conn w) with
    | None => e = e0 /\ rolled_back (conn w) (conn w')
    | Some e' => e = e' /\ conn w' = conn w
    end.
Proof.
  intros H. pose proof (execute_query_cases env query params w) as Hc.
  rewrite H in Hc. destruct Hc as (Hfs & e0 & Hlog & Hrb).
  split; [done|]. split; [|by exists e0].
  destruct (server_rollback env (conn w)) as [e'|].
  - destruct Hrb as [_ ->]. by split.
  - destruct Hrb as (_ & Ht & _ & Hc & _). by split.
Qed.

Lemma execute_query_failure_rolls_back_witness :
  rolled_back (mk_conn [row_full] [row_gap] 3 0)
    (conn (snd (execute_query env_down sql_machine_list None
                  (mk_world ∅ (mk_conn [row_full] [row_gap] 3 0) [])))) /\
  conn (snd (execute_query env_unreachable sql_machine_list None
               (mk_world ∅ (mk_conn [row_full] [row_gap] 3 0) [])))
  = mk_conn [row_full] [row_gap] 3 0.
Proof.
  split.
  - destruct (execute_query_failure_rolls_back env_down sql_machine_list None
                (mk_world ∅ (mk_conn [row_full] [row_gap] 3 0) []) _ db_down eq_refl)
      as (_ & _ & e0 & _ & H).
    exact (proj2 H).
  - destruct (execute_query_failure_rolls_back env_unreachable sql_machine_list None
                (mk_world ∅ (mk_conn [row_full] [row_gap] 3 0) []) _ connection_closed
                eq_refl)
      as (_ & _ & e0 & _ & H).
    exact (proj2 H).
Defined.



Lemma execute_query_read_only (env : Env) (query : string) (params : option (list pyval)) :
  is_select_query query = true -> stable read_only (execute_query env query params).
Proof.
  intros Hsel w. pose proof (execute_query_cases env query params w) as Hc.
  destruct (execute_query env query params w) as [[r|e] w']; simpl.
  - destruct Hc as (Hfs & _ & Hc). rewrite Hsel in Hc. destruct Hc as [_ Hc].
    unfold read_only. by rewrite Hc, Hfs.
  - destruct Hc as (Hfs & e0 & _ & Hrb).
    destruct (server_rollback env (conn w)) as [e'|].
    + destruct Hrb as [_ Hrb]. unfold read_only. by rewrite Hrb, Hfs.
    + destruct Hrb as (_ & Ht & _ & Hcm & _). by repeat split.
Qed.

Lemma execute_query_settled (env : Env) (query : string) (params : option (list pyval)) :
  stable settled (execute_query env query params).
Proof.
  intros w Hp. pose proof (execute_query_cases env query params w) as Hc.
  destruct (execute_query env query params w) as [[r|e] w']; simpl.
  - destruct Hc as (Hfs & _ & Hc). destruct (is_select_query query).
    + destruct Hc as [_ ->]. by repeat split.
    + destruct Hc as [_ (Ht & Hp' & _)]. rewrite Hp, app_nil_r in Ht. by repeat split.
  - destruct Hc as (Hfs & e0 & _ & Hrb).
    destruct (server_rollback env (conn w)) as [e'|].
    + destruct Hrb as [_ Hrb]. rewrite Hrb. by repeat split.
    + destruct Hrb as (_ & Ht & Hp' & _). by repeat split.
Qed.

(** ** [init_db] *)



(** ** Reading never commits *)

Ltac stab R T L leaf :=
  repeat first
    [ leaf
    | apply (stable_bind _ T)
    | apply (stable_try_except_AttributeError _ T)
    | apply (stable_try_except _ T)
    | apply (stable_ret _ R)
    | apply (stable_raise _ R)
    | apply (stable_lift _ R)
    | apply (stable_logger _ L)
    | apply (stable_path_exists _ R)
    | apply (stable_joblib_load _ R)
    | apply (stable_read_csv _ R)
    | match goal with
      | |- forall _, _ => intro
      | |- stable _ (match ?x with _ => _ end) => destruct x
      | |- stable _ (if ?x then _ else _) => destruct x
      end ].

Ltac reads :=
  stab read_only_refl read_only_trans read_only_log
    ltac:(apply execute_query_read_only; first [assumption | vm_compute; reflexivity]).

Lemma sorted_result_read_only (r : qresult) (key : item -> outcome sort_key) (reverse : bool) :
  stable read_only (sorted_result r key reverse).
Proof. unfold sorted_result. reads. Qed.

Lemma log_machines_read_only (l : list item) : forall i, stable read_only (log_machines i l).
Proof. induction l as [|m l IH]; intros i; simpl; reads. apply IH. Qed.

(** X4.  The reporting side of [Database] is read-only: the rankings,
    the status listing, the comparison report, the plain telemetry
    queries and the table counts of [verify_database_setup] never
    commit, never change a committed row and never write a file,
    whether they return or raise. *)
Theorem reports_never_commit (env : Env) (limit : Z) (status_filter : option string)
    (a b c : pyval) :
  stable read_only (get_machines_with_highest_temperature env limit) /\
  stable read_only (get_machines_with_highest_humidity env limit) /\
  stable read_only (get_machines_with_highest_vibration env limit) /\
  stable read_only (get_machines_with_highest_fuel_consumption env limit) /\
  stable read_only (get_machines_with_lowest_temperature env limit) /\
  stable read_only (get_machines_with_lowest_humidity env limit) /\
  stable read_only (get_machines_with_lowest_vibration env limit) /\
  stable read_only (get_machines_with_lowest_fuel_consumption env limit) /\
  stable read_only (get_machines_by_status env status_filter) /\
  stable read_only (get_machine_comparison_stats env) /\
  stable read_only (get_latest_telemetry env a b) /\
  stable read_only (get_telemetry_range env a b c) /\
  stable read_only (get_machine_list env) /\
  stable read_only (get_telemetry_stats env a) /\
  stable read_only (verify_database_setup env).
Proof.
  unfold get_machines_with_highest_temperature, get_machines_with_highest_humidity,
    get_machines_with_highest_vibration, get_machines_with_highest_fuel_consumption,
    get_machines_with_lowest_temperature, get_machines_with_lowest_humidity,
    get_machines_with_lowest_vibration, get_machines_with_lowest_fuel_consumption,
    get_machines_by_status, get_machine_comparison_stats, get_latest_telemetry,
    get_telemetry_range, get_machine_list, get_telemetry_stats, verify_database_setup.
  repeat match goal with |- _ /\ _ => split end; reads;
    try apply sorted_result_read_only; try apply log_machines_read_only.
Qed.

(** ** Sorting *)

Lemma key_le_ordered (a b : sort_key) :
  key_le a b = true -> is_other a = false /\ is_other b = false.
Proof. destruct a, b; simpl; try discriminate; auto. Qed.

Lemma key_le_total (a b : sort_key) :
  is_other a = false -> is_other b = false -> key_le a b = false -> key_le b a = true.
Proof.
  destruct a as [x| |], b as [y| |]; simpl; try discriminate; try done.
  intros _ _ H. apply Qle_bool_iff. apply Qlt_le_weak, Qnot_le_lt.
  intros Hle. apply Qle_bool_iff in Hle. congruence.
Qed.

Lemma key_le_trans (a b c : sort_key) :
  key_le a b = true -> key_le b c = true -> key_le a c = true.
Proof.
  destruct a as [x| |], b as [y| |], c as [z| |]; simpl; try discriminate; try done.
  rewrite !Qle_bool_iff. apply Qle_trans.
Qed.

Lemma key_order_total (reverse : bool) (a b : sort_key) :
  is_other a = false -> is_other b = false ->
  key_order reverse a b = false -> key_order reverse b a = true.
Proof. destruct reverse; simpl; auto using key_le_total. Qed.

Lemma key_order_trans (reverse : bool) (a b c : sort_key) :
  key_order reverse a b = true -> key_order reverse b c = true ->
  key_order reverse a c = true.
Proof. destruct reverse; simpl; eauto using key_le_trans. Qed.

Section InsertionSort.
Context {A : Type}.
Variable reverse : bool.

Let R (a b : sort_key * A) : Prop := key_order reverse (fst a) (fst b) = true.
Let ok (a : sort_key * A) : Prop := is_other (fst a) = false.

Lemma insert_sorted_perm (x : sort_key * A) (l : list (sort_key * A)) :
  insert_sorted (key_order reverse) x l ≡ₚ x :: l.
Proof.
  induction l as [|y l IH]; simpl; [done|].
  destruct (key_order reverse x.1 y.1); [done|].
  rewrite IH. apply Permutation_swap.
Qed.

Lemma insert_sorted_sorted (x : sort_key * A) (l : list (sort_key * A)) :
  ok x -> Forall ok l -> StronglySorted R l ->
  StronglySorted R (insert_sorted (key_order reverse) x l).
Proof.
  intros Hx Hok Hs. induction Hs as [|y l Hs IH Hy]; simpl.
  - repeat constructor.
  - apply Forall_cons in Hok as [Hoky Hok].
    destruct (key_order reverse x.1 y.1) eqn:E.
    + constructor; [by constructor|]. constructor; [exact E|].
      eapply Forall_impl; [exact Hy|]. intros z Hz. eapply key_order_trans; [exact E|exact Hz].
    + constructor; [by apply IH|].
      rewrite insert_sorted_perm. constructor; [|done].
      by apply key_order_total.
Qed.

Lemma sort_perm (kl : list (sort_key * A)) :
  foldr (insert_sorted (key_order reverse)) [] kl ≡ₚ kl.
Proof.
  induction kl as [|x kl IH]; simpl; [done|]. by rewrite insert_sorted_perm, IH.
Qed.

Lemma sort_sorted (kl : list (sort_key * A)) :
  Forall ok kl -> StronglySorted R (foldr (insert_sorted (key_order reverse)) [] kl).
Proof.
  induction 1 as [|x kl Hx Hok IH]; simpl; [constructor|].
  apply insert_sorted_sorted; [done| |done]. by rewrite sort_perm.
Qed.

End InsertionSort.

Lemma keyed_spec {A} (key : A -> outcome sort_key) (l : list A) :
  forall kl, keyed key l = Ok kl ->
    map snd kl = l /\ Forall (fun kx => key (snd kx) = Ok (fst kx)) kl.
Proof.
  induction l as [|x l IH]; simpl; intros kl.
  - intros [= <-]. by split.
  - destruct (key x) as [k|e] eqn:Hk; [|discriminate].
    destruct (keyed key l) as [kl'|e]; [|discriminate].
    intros [= <-]. destruct (IH _ eq_refl) as [<- Hall].
    split; [done|]. by constructor.
Qed.

Lemma sorted_by_key {A} (key : A -> outcome sort_key) (reverse : bool) (kl : list (sort_key * A)) :
  Forall (fun kx => key (snd kx) = Ok (fst kx)) kl ->
  StronglySorted (fun a b => key_order reverse (fst a) (fst b) = true) kl ->
  StronglySorted (key_before key reverse) (map snd kl).
Proof.
  intros Hkey Hs. induction Hs as [|x kl Hs IH Hx]; simpl; [constructor|].
  apply Forall_cons in Hkey as [Hkx Hkey].
  constructor; [by apply IH|].
  apply Forall_map, Forall_forall. intros y Hy.
  exists (fst x), (fst y). split; [done|]. split.
  - rewrite Forall_forall in Hkey. by apply Hkey.
  - rewrite Forall_forall in Hx. by apply Hx.
Qed.

(** What [sorted] returns is a rearrangement of its input in which every
    item may stand before all later ones. *)
Lemma sorted_spec {A} (l s : list A) (key : A -> outcome sort_key) (reverse : bool) :
  sorted l key reverse = Ok s ->
  s ≡ₚ l /\ StronglySorted (key_before key reverse) s.
Proof.
  unfold sorted. destruct (keyed key l) as [kl|e] eqn:Hk; [|discriminate].
  destruct (keyed_spec key l kl Hk) as [Hl Hkey].
  destruct ((2 <=? length kl)%nat && existsb (fun kx => is_other kx.1) kl) eqn:Hc;
    [discriminate|].
  fold (key_order reverse).
  change (fun a b : sort_key => key_order reverse a b) with (key_order reverse).
  replace (if reverse then fun a b => key_le b a else key_le) with (key_order reverse)
    by (by destruct reverse).
  intros [= <-]. split.
  - rewrite <- Hl. by rewrite (sort_perm reverse kl).
  - apply sorted_by_key.
    + rewrite (sort_perm reverse kl). done.
    + apply andb_false_iff in Hc as [Hlen|Hother].
      * apply Nat.leb_gt in Hlen. destruct kl as [|a [|b kl']]; simpl in *; try lia.
        -- constructor.
        -- repeat constructor.
      * apply sort_sorted. apply Forall_forall. intros kx Hin.
        destruct (is_other kx.1) eqn:E; [|done].
        assert (existsb (fun kx => is_other kx.1) kl = true); [|congruence].
        apply existsb_exists. exists kx. split; [by apply list_elem_of_In|done].
Qed.

(** ** Rankings *)

Lemma StronglySorted_weaken {A} (R S : A -> A -> Prop) (l : list A) :
  (forall a b, R a b -> S a b) -> StronglySorted R l -> StronglySorted S l.
Proof.
  intros HRS. induction 1 as [|x l Hs IH Hx]; constructor; [done|].
  eapply Forall_impl; [exact Hx|]. auto.
Qed.

Lemma key_field_num (name : string) (a : item) (ka : sort_key) :
  key_field name a = Ok ka -> is_other ka = false ->
  exists q, ka = KNum q /\ field_num name a q.
Proof.
  unfold key_field, getitem. destruct a as [d|v]; [|discriminate].
  destruct (d !! name) as [v|] eqn:Hd; [|discriminate].
  intros [= <-]. destruct v; simpl; try discriminate.
  intros _. eexists. split; [reflexivity|]. by exists d.
Qed.

Lemma key_before_field (name : string) (reverse : bool) (a b : item) :
  key_before (key_field name) reverse a b -> before name reverse a b.
Proof.
  intros (ka & kb & Ha & Hb & Hord).
  assert (is_other ka = false /\ is_other kb = false) as [Hoa Hob].
  { destruct reverse; simpl in Hord; apply key_le_ordered in Hord; tauto. }
  destruct (key_field_num _ _ _ Ha Hoa) as (qa & -> & Hqa).
  destruct (key_field_num _ _ _ Hb Hob) as (qb & -> & Hqb).
  exists qa, qb. split; [done|]. split; [done|].
  destruct reverse; simpl in Hord; by apply Qle_bool_iff in Hord.
Qed.

Lemma keyed_numeric (name : string) (rows : list item) :
  Forall (fun it => exists q, field_num name it q) rows ->
  exists kl, keyed (key_field name) rows = Ok kl /\
    existsb (fun kx => is_other (fst kx)) kl = false.
Proof.
  induction 1 as [|it rows (q & d & -> & Hq) _ (kl & Hkl & Hex)]; simpl.
  - by exists [].
  - unfold key_field at 1, getitem. rewrite Hq, Hkl. simpl.
    eexists. split; [reflexivity|]. simpl. exact Hex.
Qed.

Lemma slice_to_split {A} (limit : Z) (s : list A) :
  exists rest, slice_to limit s ++ rest = s /\
    length (slice_to limit s) = slice_len limit (length s).
Proof.
  unfold slice_to, slice_len. destruct (0 <=? limit)%Z.
  - exists (drop (Z.to_nat limit) s). split; [apply take_drop|]. apply length_take.
  - exists (drop (length s - Z.to_nat (- limit)) s). split; [apply take_drop|].
    rewrite length_take. lia.
Qed.

(** The shape the seven plain ranking reports share. *)
Lemma rank_spec (env : Env) (sql name : string) (reverse : bool) (limit : Z)
    (w w1 : World) (rows : list item) :
  execute_query env sql None w = (Ok (QRows rows), w1) ->
  ranks (bind (execute_query env sql None)
           (fun all_machines =>
              bind (sorted_result all_machines (key_field name) reverse)
                (fun sorted_machines => ret (slice_to limit sorted_machines))))
    name reverse limit w rows w1.
Proof.
  intros Hq Hnum. unfold bind at 1. rewrite Hq.
  cbv [bind sorted_result lift ret].
  destruct (sorted rows (key_field name) reverse) as [s|e] eqn:Hs.
  - eexists. split; [reflexivity|].
    destruct (sorted_spec _ _ _ _ Hs) as [Hperm Hsorted].
    destruct (slice_to_split limit s) as (rest & Hsplit & Hlen).
    exists rest. rewrite Hsplit. split; [done|]. split.
    + by rewrite Hlen, Hperm.
    + eapply StronglySorted_weaken; [|exact Hsorted]. apply key_before_field.
  - exfalso. unfold sorted in Hs.
    destruct (keyed_numeric name rows Hnum) as (kl & Hkl & Hex).
    rewrite Hkl, Hex, andb_false_r in Hs. discriminate.
Qed.

(** X5.  Once their query has returned rows that all carry a number for
    the metric, the seven plain ranking reports return the head of a
    ranking of exactly these rows: no row is invented or doubled,
    [limit] rows are kept (all of them when there are fewer, all but
    the last [-limit] for a negative limit), the kept rows are in
    descending order of the metric for the "highest" reports and
    ascending for the "lowest" ones, and every row left out ranks after
    every row kept. *)
Theorem rankings_rank (env : Env) (limit : Z) (w w1 : World) (rows : list item) :
  (execute_query env sql_temperature None w = (Ok (QRows rows), w1) ->
     ranks (get_machines_with_highest_temperature env limit) "temperature" true limit w rows w1 /\
     ranks (get_machines_with_lowest_temperature env limit) "temperature" false limit w rows w1) /\
  (execute_query env sql_humidity None w = (Ok (QRows rows), w1) ->
     ranks (get_machines_with_highest_humidity env limit) "humidity" true limit w rows w1) /\
  (execute_query env sql_vibration None w = (Ok (QRows rows), w1) ->
     ranks (get_machines_with_highest_vibration env limit) "vibration" true limit w rows w1 /\
     ranks (get_machines_with_lowest_vibration env limit) "vibration" false limit w rows w1) /\
  (execute_query env sql_fuel None w = (Ok (QRows rows), w1) ->
     ranks (get_machines_with_highest_fuel_consumption env limit) "fuel" true limit w rows w1 /\
     ranks (get_machines_with_lowest_fuel_consumption env limit) "fuel" false limit w rows w1).
Proof.
  repeat match goal with |- _ /\ _ => split end; intros H;
    try split; by apply rank_spec.
Qed.

Lemma rankings_rank_witness :
  exists result,
    get_machines_with_highest_temperature env_temperatures 2 world0 = (Ok result, world0) /\
    ranking "temperature" true 2 temperature_rows result.
Proof.
  destruct (rankings_rank env_temperatures 2 world0 world0 temperature_rows)
    as (Htemp & _).
  destruct (Htemp eq_refl) as [Hhigh _].
  apply Hhigh. repeat constructor; eexists; eexists; (split; [reflexivity|reflexivity]).
Defined.

Lemma key_before_humidity (a b : item) :
  key_before key_humidity_or_inf false a b -> humidity_before a b.
Proof.
  intros (ka & kb & Ha & Hb & Hord). simpl in Hord.
  unfold key_humidity_or_inf, getitem in Ha, Hb.
  destruct a as [da|]; [|discriminate]. destruct b as [db|]; [|discriminate].
  exists da, db. split; [done|]. split; [done|].
  destruct (da !! "humidity") as [va|]; [|discriminate].
  destruct (db !! "humidity") as [vb|]; [|discriminate].
  destruct va, vb; simplify_eq/=; try discriminate.
  - left. split; [done|]. by left.
  - left. split; [done|]. right. eauto.
  - right. apply Qle_bool_iff in Hord. eauto.
Qed.

(** X6.  [get_machines_with_lowest_humidity] never raises.  When its
    query has returned rows whose humidity is a number or [None], what
    it returns is the empty list (nothing came back, the limit is 0, or
    something failed and was logged) or the head of an ascending
    ranking of these rows, rows without a humidity last, cut to [limit]
    like the other rankings. *)
Theorem lowest_humidity_report (env : Env) (limit : Z) (w : World) :
  (exists result w', get_machines_with_lowest_humidity env limit w = (Ok result, w')) /\
  (forall rows w1 result w',
     execute_query env sql_humidity_checked None w = (Ok (QRows rows), w1) ->
     Forall humidity_known rows ->
     get_machines_with_lowest_humidity env limit w = (Ok result, w') ->
     result = [] \/
     exists rest,
       result ++ rest ≡ₚ rows /\
       length result = slice_len limit (length rows) /\
       StronglySorted humidity_before (result ++ rest)).
Proof.
  split.
  - unfold get_machines_with_lowest_humidity. apply try_except_total.
    intros e w1. run. eauto.
  - intros rows w1 result w' Hq _.
    unfold get_machines_with_lowest_humidity, try_except. unfold bind at 1. rewrite Hq.
    destruct rows as [|x rows]; [run; intros [= <- _]; by left|].
    unfold bind at 1. unfold sorted_result, lift.
    destruct (sorted (x :: rows) key_humidity_or_inf false) as [s|e] eqn:Hs;
      [|run; intros [= <- _]; by left].
    unfold bind at 1. unfold logger at 1. unfold bind at 1.
    destruct (log_machines 0 (slice_to limit s) _) as [[[]|e] w3];
      [|run; intros [= <- _]; by left].
    unfold ret. intros [= <- _]. right.
    destruct (sorted_spec _ _ _ _ Hs) as [Hperm Hsorted].
    destruct (slice_to_split limit s) as (rest & Hsplit & Hlen).
    exists rest. rewrite Hsplit. split; [done|]. split.
    + by rewrite Hlen, Hperm.
    + eapply StronglySorted_weaken; [|exact Hsorted]. apply key_before_humidity.
Qed.

Lemma lowest_humidity_report_witness :
  exists result w',
    get_machines_with_lowest_humidity env_humidities 2 world0 = (Ok result, w') /\
    (result = [] \/
     exists rest, result ++ rest ≡ₚ humidity_rows /\
       StronglySorted humidity_before (result ++ rest)).
Proof.
  destruct (lowest_humidity_report env_humidities 2 world0) as [(result & w' & H) Hrank].
  exists result, w'. split; [exact H|].
  destruct (Hrank humidity_rows world0 result w' eq_refl) as [Hnil|(rest & Hp & _ & Hs)].
  - repeat constructor; eexists; (split; [reflexivity|]); [right|left|right]; eauto.
  - exact H.
  - by left.
  - right. by exists rest.
Defined.

(** ** Status listing, exactly *)

Lemma valid_machines_loop_filter (sf : option string) (result : list item) :
  forall acc l,
    valid_machines_loop sf result acc = Ok l ->
    l = acc ++ List.filter (kept sf) result.
Proof.
  induction result as [|machine result IH]; intros acc l; simpl.
  - intros [= <-]. by rewrite app_nil_r.
  - destruct machine as [d|v]; [|apply IH]. unfold kept at 1.
    destruct (truthy (dict_get_none d "machineid") && truthy (dict_get_none d "status"));
      [|apply IH]. simpl.
    destruct (filter_given sf) as [f|].
    + destruct (status_lower d) as [s|e]; [|discriminate].
      destruct (contains s (lower f)).
      * intros H. rewrite (IH _ _ H). by rewrite <- app_assoc.
      * apply IH.
    + intros H. rewrite (IH _ _ H). by rewrite <- app_assoc.
Qed.

Lemma valid_machines_loop_text (sf : option string) (result : list item) :
  Forall (fun it => text_status it = true) result ->
  forall acc, exists l, valid_machines_loop sf result acc = Ok l.
Proof.
  induction 1 as [|machine result Hm _ IH]; intros acc; cbn [valid_machines_loop]; [eauto|].
  destruct machine as [d|v]; [|apply IH].
  destruct (truthy (dict_get_none d "machineid") && truthy (dict_get_none d "status"))
    eqn:Hv; [|apply IH].
  destruct (filter_given sf) as [f|]; [|apply IH].
  apply andb_true_iff in Hv as [_ Hs]. apply andb_true_iff in Hm as [_ Hm].
  unfold status_lower, dict_get_none, dict_get in *.
  destruct (d !! "status") as [[]|]; cbn in Hs, Hm |- *; try discriminate.
  destruct (contains _ _); apply IH.
Qed.

Lemma kept_status (f : string) (sf : option string) (d : gmap string pyval) :
  filter_given sf = Some f ->
  kept sf (Row d) = true ->
  exists s, d !! "status" = Some (PStr s) /\ contains (lower s) (lower f) = true.
Proof.
  intros Hf. unfold kept. rewrite Hf.
  intros [[_ Hs]%andb_true_iff Hc]%andb_true_iff.
  unfold status_lower, dict_get_none, dict_get in *.
  destruct (d !! "status") as [v|]; simpl in *; [|discriminate].
  destruct v; try discriminate. eauto.
Qed.

(** X7.  When the query returns rows whose machine id and status, where
    there, are text, the statuses and the filter being plain ASCII,
    [get_machines_by_status] returns exactly the rows it keeps,
    in the order the query gave them: the dict rows with a non-empty
    machine id and status and, under a filter, with the filter
    occurring in the status, the letters A to Z compared
    case-insensitively. *)
Theorem status_listing_exact (env : Env) (status_filter : option string)
    (w w1 : World) (rows : list item) :
  status_query env status_filter w = (Ok (QRows rows), w1) ->
  Forall (fun it => text_status it = true) rows ->
  Forall (fun it => ascii_status it = true) rows ->
  ascii_filter status_filter = true ->
  (exists w', get_machines_by_status env status_filter w
              = (Ok (List.filter (kept status_filter) rows), w')) /\
  (forall f d, filter_given status_filter = Some f ->
     Row d ∈ List.filter (kept status_filter) rows ->
     exists s, d !! "status" = Some (PStr s) /\ contains (lower s) (lower f) = true).
Proof.
  intros Hq Htext _ _. split.
  - unfold get_machines_by_status, try_except. unfold bind at 1.
    unfold status_query in Hq. rewrite Hq.
    destruct rows as [|x rows]; [run; eauto|].
    destruct (valid_machines_loop_text status_filter (x :: rows) Htext []) as [l Hl].
    cbv [bind lift logger ret]. rewrite Hl.
    rewrite (valid_machines_loop_filter _ _ _ _ Hl). simpl app. eauto.
  - intros f d Hf Hin. apply list_elem_of_In, filter_In in Hin as [_ Hk].
    by eapply kept_status.
Qed.

Lemma status_listing_exact_witness :
  exists w',
    get_machines_by_status env_statuses (Some "FAULT") world0
    = (Ok (take 2 status_rows), w').
Proof.
  destruct (status_listing_exact env_statuses (Some "FAULT") world0 world0 status_rows)
    as [[w' Hw'] _].
  - reflexivity.
  - repeat constructor.
  - repeat constructor.
  - reflexivity.
  - exists w'. exact Hw'.
Defined.

(** ** Cleaning twice *)

Lemma column_mapping_fixed (k : string) :
  has_upper k = false -> dict_get column_mapping k (lower k) = k.
Proof.
  intros Hk. unfold dict_get.
  destruct (column_mapping !! k) as [v|] eqn:E; simpl; [|by apply lower_fixed].
  unfold column_mapping in E. apply elem_of_list_to_map_2 in E.
  repeat (apply elem_of_cons in E as [E|E];
          [injection E as -> ->; first [reflexivity | discriminate Hk]|]).
  by apply elem_of_nil in E.
Qed.

Lemma converted_columns_no_capitals (df : DataFrame) :
  Forall (fun c => has_upper c = false) (columns (_convert_column_names df)).
Proof.
  unfold _convert_column_names; cbn [columns].
  apply Forall_map, Forall_forall. intros col _. cbv beta. unfold dict_get.
  destruct (column_mapping !! col) as [v|] eqn:E; simpl.
  - by apply column_mapping_lowercase in E.
  - apply has_upper_lower.
Qed.

Lemma convert_fixed (df : DataFrame) :
  Forall (fun c => has_upper c = false) (columns df) -> _convert_column_names df = df.
Proof.
  intros H. destruct df as [cols body]. unfold _convert_column_names; cbn [columns rows] in *.
  f_equal. rewrite <- (map_id cols) at 2. apply map_ext_Forall.
  eapply Forall_impl; [exact H|]. intros c Hc. by apply column_mapping_fixed.
Qed.

Lemma fill_cell_twice (c : string) (v : pyval) :
  fill_cell fill_values c (fill_cell fill_values c v) = fill_cell fill_values c v.
Proof.
  unfold fill_cell. destruct (fill_values !! c) as [d|] eqn:E; [|done].
  destruct (isna v) eqn:Hv; [|by rewrite Hv].
  by rewrite (fill_values_populated c d E).
Qed.

Lemma fill_row_twice (cols : list string) :
  forall r, zip_with (fill_cell fill_values) cols (zip_with (fill_cell fill_values) cols r)
            = zip_with (fill_cell fill_values) cols r.
Proof.
  induction cols as [|c cols IH]; intros [|v r]; simpl; try done.
  by rewrite fill_cell_twice, IH.
Qed.

(** X8.  Preparing a frame for the insert is idempotent (for a file
    whose column names stay distinct once normalized): the prepared
    frame has a header free of capitals and no missing cell left in a
    column with a default, so renaming and filling it again changes
    nothing. *)
Theorem prepared_idempotent (df : DataFrame) :
  NoDup (columns (_convert_column_names df)) ->
  prepared (prepared df) = prepared df /\
  Forall (fun c => has_upper c = false) (columns (prepared df)).
Proof.
  intros _.
  assert (Hcols : columns (prepared df) = columns (_convert_column_names df)).
  { unfold prepared, _clean_dataframe, fillna. cbn [columns].
    apply converted_columns_lowercase. }
  assert (Hlow : Forall (fun c => has_upper c = false) (columns (prepared df))).
  { rewrite Hcols. apply converted_columns_no_capitals. }
  split; [|done].
  unfold prepared at 1. rewrite (convert_fixed (prepared df) Hlow).
    unfold _clean_dataframe, fillna. cbn [columns rows].
    rewrite Hcols, converted_columns_lowercase. f_equal.
    unfold prepared, _clean_dataframe, fillna. cbn [columns rows].
    rewrite map_map, converted_columns_lowercase. f_equal.
  apply map_ext. intros r. apply fill_row_twice.
Qed.

Lemma prepared_idempotent_witness :
  prepared (prepared df_gap) = prepared df_gap.
Proof.
  apply prepared_idempotent. apply (bool_decide_unpack _). vm_compute. exact I.
Defined.

(** ** Ingestion: the file that cannot be read *)

(** X9.  A path that holds no readable CSV file: [ingest_csv] raises
    before any database work.  The connection and the files are as they
    were, and the log has the two records of the attempt. *)
Theorem ingest_csv_unreadable (env : Env) (path : string) (w : World) :
  (forall df, fs w !! path <> Some (FCsv df)) ->
  exists e w',
    ingest_csv env path w = (Raise e, w') /\
    conn w' = conn w /\ fs w' = fs w /\
    logs w' = logs w ++ [ mk_log INFO "Reading CSV file: {file_path}" [AStr path];
                          mk_log ERROR "Ingestion failed: {e}" [AExn e] ].
Proof.
  intros Hno. unfold ingest_csv, try_except.
  unfold bind at 1. unfold logger at 1. unfold bind at 1. unfold read_csv. cbn [fs].
  destruct (fs w !! path) as [[df| |]|].
  - by destruct (Hno df).
  - run. eexists _, _. split; [reflexivity|]. cbn. by rewrite <- app_assoc.
  - run. eexists _, _. split; [reflexivity|]. cbn. by rewrite <- app_assoc.
  - run. eexists _, _. split; [reflexivity|]. cbn. by rewrite <- app_assoc.
Qed.

Lemma ingest_csv_unreadable_witness :
  exists e w',
    ingest_csv env_ok "missing.csv" (world_csv df_three) = (Raise e, w') /\
    conn w' = conn0.
Proof.
  destruct (ingest_csv_unreadable env_ok "missing.csv" (world_csv df_three))
    as (e & w' & H & Hconn & _).
  - intros df. vm_compute. discriminate.
  - exists e, w'. split; [exact H|exact Hconn].
Defined.

(** ** The setup and the telemetry table *)

Ltac settles :=
  stab settled_refl settled_trans settled_log ltac:(apply execute_query_settled).

Lemma init_db_settled (env : Env) : stable settled (init_db env).
Proof.
  unfold init_db.
  assert (Hloop : forall a b qs, stable settled (init_db_loop env a b qs)).
  { intros a b qs. induction qs as [|q qs IH]; cbn [init_db_loop]; settles. exact IH. }
  settles; apply Hloop.
Qed.

Lemma verify_database_setup_settled (env : Env) : stable settled (verify_database_setup env).
Proof.
  unfold verify_database_setup. generalize ["telemetry"; "user_query_log"; "predictions"].
  intros tables. induction tables as [|t tables IH]; cbn [verify_loop]; settles. exact IH.
Qed.

(** X10.  Without a usable CSV path (none given, the empty string, or a
    file that is not there) [setup_complete_database] ingests nothing:
    started with no transaction open, it returns with the telemetry
    table and the files exactly as they were. *)
Theorem setup_without_csv (env : Env) (csv_file_path : option string) (w : World) :
  pending (conn w) = [] ->
  match csv_file_path with
  | Some p => p = "" \/ fs w !! p = None
  | None => True
  end ->
  exists w',
    setup_complete_database env csv_file_path w = (Ok tt, w') /\
    table (conn w') = table (conn w) /\ pending (conn w') = [] /\ fs w' = fs w.
Proof.
  intros Hp Hcsv.
  unfold setup_complete_database, try_except.
  unfold bind at 1. unfold logger at 1. unfold bind at 1.
  set (w0 := mk_world (fs w) (conn w) _).
  destruct (init_db_ok env w0) as [w1 Hinit].
  pose proof (init_db_settled env w0 Hp) as (Ht1 & Hp1 & Hfs1). rewrite Hinit in *.
  cbn [snd] in *. unfold bind at 1.
  assert (Hskip : match csv_file_path with
                  | Some p =>
                      if String.eqb p "" then ret tt
                      else bind (path_exists p)
                             (fun found =>
                                if found
                                then bind (ingest_csv env p)
                                       (fun count =>
                                          logger INFO "{count} rows inserted into telemetry."
                                            [ALen count])
                                else ret tt)
                  | None => ret tt
                  end w1 = (Ok tt, w1)).
  { destruct csv_file_path as [p|]; [|done].
    destruct (String.eqb p "") eqn:E; [done|].
    destruct Hcsv as [->|Hnone]; [done|].
    unfold bind, path_exists. rewrite Hfs1. cbn [fs w0]. rewrite Hnone.
    rewrite bool_decide_eq_false_2 by (intros [? [=]]). done. }
  rewrite Hskip. unfold bind at 1.
  destruct (verify_database_setup_ok env w1) as [w2 Hver].
  pose proof (verify_database_setup_settled env w1 Hp1) as (Ht2 & Hp2 & Hfs2).
  rewrite Hver in *. cbn [snd] in *. unfold logger.
  eexists. split; [reflexivity|]. cbn [conn fs].
  rewrite Ht2, Hp2, Hfs2, Ht1, Hfs1. done.
Qed.

Lemma setup_without_csv_witness :
  exists w',
    setup_complete_database env_ok (Some "missing.csv")
      (mk_world ∅ (mk_conn [row_full] [] 1 0) []) = (Ok tt, w') /\
    table (conn w') = [row_full].
Proof.
  destruct (setup_without_csv env_ok (Some "missing.csv")
              (mk_world ∅ (mk_conn [row_full] [] 1 0) []))
    as (w' & H & Ht & _).
  - reflexivity.
  - right. reflexivity.
  - exists w'. split; [exact H|exact Ht].
Defined.



(** ** The fixer, artifact by artifact *)

Lemma translate_no_capitals (names : list string) :
  Forall (fun n => has_upper n = false) (translate names).
Proof.
  unfold translate. apply Forall_map, Forall_forall. intros f _. cbv beta.
  unfold dict_get. destruct (feature_mapping !! f) as [v|] eqn:E; simpl.
  - by apply feature_mapping_entry in E as (_ & ? & _).
  - apply has_upper_lower.
Qed.

Lemma translate_fixed (names : list string) :
  Forall (fun n => has_upper n = false) names -> translate names = names.
Proof.
  intros H. unfold translate. rewrite <- (map_id names) at 2.
  apply map_ext_Forall. eapply Forall_impl; [exact H|].
  intros n Hn. cbv beta. unfold dict_get.
  rewrite feature_mapping_lowercase by done. simpl. by apply lower_fixed.
Qed.

Lemma renamed_again (obj : pyobj) (names : list string) :
  renamed (renamed obj names) (translate names) = renamed obj names.
Proof.
  unfold renamed. cbn [setattr_error transform].
  by rewrite (translate_fixed _ (translate_no_capitals names)).
Qed.

Lemma fix_model_features_writes (env : Env) (path kind : string) (obj : pyobj)
    (names : list string) (w : World) :
  fs w !! path = Some (FPickle obj) ->
  feature_names_in_ obj = Some names ->
  setattr_error obj = None ->
  write_error env path = None ->
  fix_model_features env path kind w
  = (Ok true,
     mk_world (<[path := FPickle (renamed obj names)]> (fs w)) (conn w)
       (logs w ++
        [ mk_log INFO "Updated feature names for {model_type}: {new_features}"
            [AStr kind; ANames (translate names)];
          mk_log INFO "Saved model file: {model_path}" [AStr path] ])).
Proof.
  intros Hfile Hattr Hset Hwr.
  unfold fix_model_features. exec. found Hfile.
  rewrite Hattr, Hset. cbv beta iota. rewrite Hwr.
  cbn [fs conn logs]. unfold renamed. by rewrite Hset, <- app_assoc.
Qed.

Lemma fix_scaler_features_writes (env : Env) (path kind : string) (obj : pyobj)
    (names : list string) (w : World) :
  fs w !! path = Some (FPickle obj) ->
  feature_names_in_ obj = Some names ->
  setattr_error obj = None ->
  write_error env path = None ->
  fix_scaler_features env path kind w
  = (Ok true,
     mk_world (<[path := FPickle (renamed obj names)]> (fs w)) (conn w)
       (logs w ++
        [ mk_log INFO "Fixed scaler features for {scaler_type}: {new_features}"
            [AStr kind; ANames (translate names)] ])).
Proof.
  intros Hfile Hattr Hset Hwr.
  unfold fix_scaler_features. exec. found Hfile.
  rewrite Hattr, Hset. cbv beta iota. rewrite Hwr. unfold renamed. by rewrite Hset.
Qed.

(** X12.  An artifact whose feature names (plain ASCII) can be written,
    at a path that can be written: the fix returns [True] and leaves at
    the path the same object with every feature name translated, all
    other files untouched.  Running the fix again returns [True] and
    leaves the file system exactly as the first run left it. *)
Theorem fix_rewrites_once (env : Env) (path kind : string) (obj : pyobj)
    (names : list string) (w : World) :
  fs w !! path = Some (FPickle obj) ->
  feature_names_in_ obj = Some names ->
  Forall (fun n => isascii n = true) names ->
  setattr_error obj = None ->
  write_error env path = None ->
  let fixed := <[path := FPickle (renamed obj names)]> (fs w) in
  (let r1 := fix_model_features env path kind w in
   let r2 := fix_model_features env path kind (snd r1) in
   fst r1 = Ok true /\ fs (snd r1) = fixed /\ fst r2 = Ok true /\ fs (snd r2) = fixed) /\
  (let r1 := fix_scaler_features env path kind w in
   let r2 := fix_scaler_features env path kind (snd r1) in
   fst r1 = Ok true /\ fs (snd r1) = fixed /\ fst r2 = Ok true /\ fs (snd r2) = fixed).
Proof.
  intros Hfile Hattr _ Hset Hwr. cbv zeta.
  set (fixed := <[path := FPickle (renamed obj names)]> (fs w)).
  assert (Hfixed : fixed !! path = Some (FPickle (renamed obj names)))
    by apply lookup_insert_eq.
  assert (Hagain : <[path := FPickle (renamed (renamed obj names) (translate names))]> fixed
                   = fixed).
  { rewrite renamed_again. unfold fixed. apply insert_insert_eq. }
  split.
  - rewrite (fix_model_features_writes _ _ _ _ _ _ Hfile Hattr Hset Hwr). cbn [fst snd].
    fold fixed.
    erewrite fix_model_features_writes; [|exact Hfixed|reflexivity|exact Hset|exact Hwr].
    cbn [fst snd fs]. by rewrite Hagain.
  - rewrite (fix_scaler_features_writes _ _ _ _ _ _ Hfile Hattr Hset Hwr). cbn [fst snd].
    fold fixed.
    erewrite fix_scaler_features_writes; [|exact Hfixed|reflexivity|exact Hset|exact Hwr].
    cbn [fst snd fs]. by rewrite Hagain.
Qed.

Lemma fix_rewrites_once_witness :
  fs (snd (fix_model_features env_ok model_path "regression"
             (world_artifact model_path obj_writable)))
  = {[ model_path :=
         FPickle (mk_obj (Some ["fuelconsumption"; "humidity"; "extra_col"]) None None) ]}.
Proof.
  destruct (fix_rewrites_once env_ok model_path "regression" obj_writable
              ["FuelConsumption"; "Humidity"; "Extra_Col"]
              (world_artifact model_path obj_writable))
    as [(_ & -> & _) _]; try reflexivity.
  repeat constructor.
Defined.

(** X13.  An artifact file that is not there, or that does not hold a
    pickled object: both fixes return [False] with an error record and
    leave files and connection alone. *)
Theorem fix_without_artifact (env : Env) (path kind : string) (w : World) :
  (forall obj, fs w !! path <> Some (FPickle obj)) ->
  (exists l, fix_model_features env path kind w
             = (Ok false, mk_world (fs w) (conn w) (logs w ++ [l])) /\ log_level l = ERROR) /\
  (exists l, fix_scaler_features env path kind w
             = (Ok false, mk_world (fs w) (conn w) (logs w ++ [l])) /\ log_level l = ERROR).
Proof.
  intros Hno.
  destruct (fs w !! path) as [[df|obj|]|] eqn:Hfile;
    try (by destruct (Hno obj));
    split; unfold fix_model_features, fix_scaler_features; exec;
    try (found Hfile; eauto);
    rewrite Hfile, bool_decide_eq_false_2 by (intros [? [=]]); cbv beta iota; eauto.
Qed.

Lemma fix_without_artifact_witness :
  fst (fix_model_features env_ok model_path "regression" world0) = Ok false /\
  fst (fix_scaler_features env_ok scaler_path "regression" (world_csv df_three)) = Ok false.
Proof.
  destruct (fix_without_artifact env_ok model_path "regression" world0)
    as [(l & -> & _) _]; [intros obj; vm_compute; discriminate|].
  destruct (fix_without_artifact env_ok scaler_path "regression" (world_csv df_three))
    as [_ (l' & -> & _)]; [intros obj; vm_compute; discriminate|].
  split; reflexivity.
Defined.

(** ** The fixer, over the registry *)

Lemma joblib_dump_offline (env : Env) (obj : pyobj) (path : string) :
  stable offline (joblib_dump env obj path).
Proof.
  intros w. unfold joblib_dump.
  destruct (write_error env path); [|done]. by destruct (write_truncates env path).
Qed.

Lemma set_feature_names_offline (obj : pyobj) (names : list string) :
  stable offline (set_feature_names obj names).
Proof. intros w. unfold set_feature_names. by destruct (setattr_error obj). Qed.

Ltac offlines :=
  stab offline_refl offline_trans offline_log
    ltac:(first [apply joblib_dump_offline | apply set_feature_names_offline]).

Lemma fix_model_features_offline (env : Env) (path kind : string) :
  stable offline (fix_model_features env path kind).
Proof. unfold fix_model_features. offlines. Qed.

Lemma fix_scaler_features_offline (env : Env) (path kind : string) :
  stable offline (fix_scaler_features env path kind).
Proof. unfold fix_scaler_features. offlines. Qed.

Lemma fix_model_features_returns (env : Env) (path kind : string) (w : World) :
  exists b w', fix_model_features env path kind w = (Ok b, w').
Proof.
  unfold fix_model_features. apply try_except_total. intros e w1. run. eauto.
Qed.

Lemma fix_scaler_features_returns (env : Env) (path kind : string) (w : World) :
  exists b w', fix_scaler_features env path kind w = (Ok b, w').
Proof.
  unfold fix_scaler_features. apply try_except_total. intros e w1. run. eauto.
Qed.

Lemma fix_all_loop_report (env : Env) (paths : list (string * (string * string))) :
  forall results w, exists r w',
    fix_all_loop env paths results w = (Ok r, w') /\
    dom r = dom results ∪ list_to_set (keys_of paths) /\
    conn w' = conn w.
Proof.
  induction paths as [|[intent [model scaler]] paths IH]; intros results w; simpl.
  - exists results, w. run. split; [done|]. split; [|done].
    cbn [keys_of flat_map list_to_set]. by rewrite (right_id_L ∅ (∪)).
  - unfold bind at 1.
    destruct (fix_model_features_returns env model intent w) as (m & w1 & Hm).
    pose proof (fix_model_features_offline env model intent w) as Hc1.
    rewrite Hm in *. unfold bind at 1.
    destruct (fix_scaler_features_returns env scaler intent w1) as (s & w2 & Hs).
    pose proof (fix_scaler_features_offline env scaler intent w1) as Hc2.
    rewrite Hs in *. cbn [snd] in *.
    destruct (IH (<[intent +:+ "_scaler" := s]> (<[intent +:+ "_model" := m]> results)) w2)
      as (r & w' & -> & Hdom & Hc).
    exists r, w'. split; [done|]. split.
    + rewrite Hdom, !dom_insert_L. cbn [keys_of flat_map app fst]. fold (keys_of paths).
      apply set_eq. intros x. rewrite !elem_of_union. tauto.
    + unfold offline in *. congruence.
Qed.

(** X14.  [fix_all_models] never raises and never uses the database
    connection.  Whatever happens to each artifact, its report has
    exactly eight entries, a model and a scaler entry for each of the
    four intents. *)
Theorem fix_all_models_reports_all (env : Env) (MODEL_DIR : string) (w : World) :
  exists r w',
    fix_all_models env MODEL_DIR w = (Ok r, w') /\
    dom r = list_to_set report_keys /\
    size r = 8 /\
    conn w' = conn w.
Proof.
  unfold fix_all_models.
  destruct (fix_all_loop_report env (model_paths MODEL_DIR) ∅ w) as (r & w' & H & Hdom & Hc).
  exists r, w'. split; [done|].
  assert (Hkeys : dom r = list_to_set report_keys).
  { rewrite Hdom, dom_empty_L, (left_id_L ∅ (∪)). reflexivity. }
  split; [done|]. split; [|done].
  rewrite <- size_dom, Hkeys. vm_compute. reflexivity.
Qed.

(** ** The query log *)



(** ** The scheduled tasks *)

Lemma test_scaler_returns (path : string) (features_dict : gmap string pyval) (w : World) :
  exists r w', test_scaler_with_real_data path features_dict w = (Ok r, w').
Proof.
  unfold test_scaler_with_real_data. apply try_except_total. intros e w1. run. eauto.
Qed.

Lemma call_transform_offline (scaler : pyobj) (row : list pyval) :
  stable offline (call_transform scaler row).
Proof.
  intros w. unfold call_transform. destruct (transform scaler) as [f|]; [|done].
  by destruct (f row).
Qed.

Lemma test_scaler_offline (path : string) (features_dict : gmap string pyval) :
  stable offline (test_scaler_with_real_data path features_dict).
Proof.
  unfold test_scaler_with_real_data.
  stab offline_refl offline_trans offline_log ltac:(apply call_transform_offline).
Qed.

(** X16.  The two scheduled tasks that work on the artifacts,
    [task_fix_models] and [task_test_scaler], complete normally in
    every state of the files and of the server, and never use the
    database connection. *)
Theorem artifact_tasks_complete (env : Env) (MODEL_DIR : string) (w : World) :
  (exists w', task_fix_models env MODEL_DIR w = (Ok tt, w') /\ conn w' = conn w) /\
  (exists w', task_test_scaler w = (Ok tt, w') /\ conn w' = conn w).
Proof.
  split.
  - unfold task_fix_models, fix_all_models. unfold bind.
    destruct (fix_all_loop_report env (model_paths MODEL_DIR) ∅ w) as (r & w' & -> & _ & Hc).
    run. eauto.
  - unfold task_test_scaler. unfold bind.
    destruct (test_scaler_returns SCALER_PATH test_data w) as (r & w' & H).
    pose proof (test_scaler_offline SCALER_PATH test_data w) as Hc.
    rewrite H in *. run. eauto.
Qed.

(** ** Ingesting a file twice *)


